(** * heroku/authenticater: the Google OAuth gate ([googleauth.go])

  A shallow embedding of the request gate [OAuthHandler] and of the
  functions it is built from ([keys], [sessionConfig], [deleteCookie],
  [newState], [domainAllowed], [loginOk], [ServeHTTPContext]).

  The gate talks to several collaborators that live outside the package:
  the cookie codec (github.com/kr/session), the OAuth2 client library, the
  network, the process environment and the random source.  Their answers
  during the handling of one request are collected in a record [World];
  every call the gate makes to them is recorded, in program order, in a
  trace of [Event]s.  A computation either returns, panics (a nil
  dereference) or terminates the process ([os.Exit]). *)

From Stdlib Require Import ZArith String Ascii List Lia Bool.
From stdpp Require Import base strings gmap list.
Import ListNotations.

(** ** Results of effectful code *)

Inductive Outcome (A : Type) : Type :=
| Ret (a : A)
| Panic (msg : string)
| Exit (code : Z).
Arguments Ret {A} a.
Arguments Panic {A} msg.
Arguments Exit {A} code.

(** ** The standard-library functions the package calls *)

Module hex.

(** [fromHexChar] of encoding/hex: the value of one hexadecimal digit. *)
Definition fromHexChar (c : ascii) : option Z :=
  let n := Z.of_N (N_of_ascii c) in
  if ((48 <=? n) && (n <=? 57))%Z then Some (n - 48)%Z
  else if ((97 <=? n) && (n <=? 102))%Z then Some (n - 97 + 10)%Z
  else if ((65 <=? n) && (n <=? 70))%Z then Some (n - 65 + 10)%Z
  else None.

(** [hex.DecodeString]: [None] stands for the error result (odd length or
    a byte that is no hexadecimal digit). *)
Fixpoint DecodeString (s : string) : option (list Z) :=
  match s with
  | EmptyString => Some []
  | String _ EmptyString => None
  | String p (String q rest) =>
      match fromHexChar p, fromHexChar q, DecodeString rest with
      | Some a, Some b, Some tl => Some (Z.lor (Z.shiftl a 4) b :: tl)
      | _, _, _ => None
      end
  end.

Definition hextable : string := "0123456789abcdef".

Definition digit (n : Z) : ascii :=
  match String.get (Z.to_nat n) hextable with
  | Some c => c
  | None => "0"%char
  end.

(** [hex.EncodeToString]: two lower-case digits per byte. *)
Fixpoint EncodeToString (src : list Z) : string :=
  match src with
  | [] => EmptyString
  | v :: tl =>
      String (digit (Z.shiftr v 4))
        (String (digit (Z.land v 15)) (EncodeToString tl))
  end.

End hex.

Module strings.

(** [strings.Split(s, sep)] for a separator of one byte, the only use the
    package makes of it.  The result is never empty. *)
Fixpoint Split (s : string) (sep : ascii) : list string :=
  match s with
  | EmptyString => [EmptyString]
  | String c rest =>
      if Ascii.eqb c sep then EmptyString :: Split rest sep
      else match Split rest sep with
           | [] => [String c EmptyString]
           | hd :: tl => String c hd :: tl
           end
  end.

(** Number of occurrences of [sep] in [s]. *)
Fixpoint Count (s : string) (sep : ascii) : nat :=
  match s with
  | EmptyString => 0
  | String c rest => (if Ascii.eqb c sep then 1 else 0) + Count rest sep
  end.

End strings.

(** ** Data model *)

Module oauth2.

Record Token : Type := {
  AccessToken : string;
  TokenType : string;
  RefreshToken : string;
  Expiry : Z
}.

Record Endpoint : Type := { AuthURL : string; TokenURL : string }.

(** [Scopes] is a slice: [None] is the nil slice, which the gate tells
    apart from an empty one. *)
Record Config : Type := {
  ClientID : string;
  ClientSecret : string;
  RedirectURL : string;
  Scopes : option (list string);
  Endpoint_ : Endpoint
}.

End oauth2.

Module session.

(** [session.Config] of github.com/kr/session.  [MaxAge] is a
    [time.Duration], in nanoseconds. *)
Record Config : Type := {
  Name : string;
  Path : string;
  Domain : string;
  MaxAge : Z;
  Keys : list (list Z)
}.

End session.

Module url.

Record URL : Type := {
  Scheme : string;
  Opaque : string;
  Host : string;
  Path : string;
  RawQuery : string;
  Fragment : string
}.

End url.

Module http.

(** The part of [*http.Request] the gate reads.  [Form] is the parsed
    form (query string and body), [Cookie] the raw Cookie header. *)
Record Request : Type := {
  Method : string;
  URL : url.URL;
  Host : string;
  Form : gmap string (list string);
  Cookie : string
}.

(** [r.FormValue(key)]: the first value of [key], or the empty string. *)
Definition FormValue (r : Request) (key : string) : string :=
  match Form r !! key with
  | Some (v :: _) => v
  | _ => EmptyString
  end.

Record Response : Type := { StatusCode : Z; Body : string }.

(** An [*http.Client] made by [oauth2.Config.Client]: it signs its
    requests with the token it was made from. *)
Record Client : Type := { conf : oauth2.Config; token : oauth2.Token }.

Definition StatusTemporaryRedirect : Z := 307.

End http.

Definition callbackPath : string := "/oauth2callback".

Record Session : Type := { Client : http.Client }.

Definition contextKey : Type := Z.
Definition sessionKey : contextKey := 0%Z.

(** A [context.Context], as far as this package's key type goes: the
    bindings made by [context.WithValue], innermost first. *)
Definition Context : Type := list (contextKey * Session).

Definition context_Background : Context := [].

Definition context_WithValue (ctx : Context) (k : contextKey) (v : Session) : Context :=
  (k, v) :: ctx.

Fixpoint context_Value (ctx : Context) (k : contextKey) : option Session :=
  match ctx with
  | [] => None
  | (k', v) :: rest => if (k' =? k)%Z then Some v else context_Value rest k
  end.

Definition GetSession (ctx : Context) : option Session :=
  context_Value ctx sessionKey.

(** The two kinds of downstream handler: a plain [http.Handler] and one
    that also implements [ContextHandler]. *)
Inductive Handler : Type :=
| PlainHandler (name : string)
| ContextAware (name : string).

Definition DefaultServeMux : Handler := PlainHandler "http.DefaultServeMux".

Record OAuthHandler : Type := {
  RequireDomain : string;
  Name : string;
  Path : string;
  Domain : string;
  MaxAge : Z;
  Key : string;
  ClientID : string;
  ClientSecret : string;
  Scopes : option (list string);
  Handler_ : option Handler
}.

Record sess : Type := {
  OAuthToken : option oauth2.Token;
  NextURL : string;
  State : string
}.

Definition sess_zero : sess :=
  {| OAuthToken := None; NextURL := EmptyString; State := EmptyString |}.

Record googleProfile : Type := {
  ID : string;
  DisplayName : string;
  FamilyName : string;
  GivenName : string;
  Email : string
}.

Definition time_Second : Z := 1000000000.

(** ** Collaborators *)

(** What [session.Get] hands back: the decoded record, [http.ErrNoCookie],
    or any other error (a cookie that fails to decode or to authenticate,
    or that has expired). *)
Inductive GetResult : Type :=
| GetOk (v : sess)
| GetErrNoCookie
| GetError (err : string).

Record World : Type := {
  (** the process environment, read by [os.Getenv] *)
  environ : gmap string string;
  (** the package variable [Endpoint] *)
  Endpoint : oauth2.Endpoint;
  (** the bytes [rand.Read] delivers *)
  entropy : list Z;
  (** [session.Get(r, &user, config)] *)
  session_Get : http.Request -> session.Config -> GetResult;
  (** [conf.Exchange(ctx, code)]: a token, or [None] for an error *)
  Exchange : oauth2.Config -> string -> option oauth2.Token;
  (** [client.Get(url)]: the pair (resp, err) of Go, [None] being nil *)
  client_Get : http.Client -> string -> option http.Response * option string;
  (** [json.NewDecoder(body).Decode(gp)]: [None] for an error *)
  json_Decode : string -> option googleProfile;
  (** [u.String()] *)
  URL_String : url.URL -> string;
  (** [conf.AuthCodeURL(state)] *)
  AuthCodeURL : oauth2.Config -> string -> string
}.

Definition os_Getenv (W : World) (name : string) : string :=
  match environ W !! name with
  | Some v => v
  | None => EmptyString
  end.

(** ** Traces *)

Inductive Event : Type :=
| EvGetenv (name : string)
| EvLogError (at_ msg : string)
| EvSessionGet (cfg : session.Config)
| EvSessionSet (v : sess) (cfg : session.Config)
| EvHttpError (body : string) (code : Z)
| EvRedirect (target : string) (code : Z)
| EvExchange (conf : oauth2.Config) (code : string)
| EvClientGet (c : http.Client) (target : string)
| EvBodyClose
| EvRandRead (n : nat)
| EvServeHTTP (h : Handler)
| EvServeHTTPContext (h : Handler) (ctx : Context).

(** A computation: the calls made so far and how it ended. *)
Definition M (A : Type) : Type := (list Event * Outcome A)%type.

Definition ret {A} (a : A) : M A := ([], Ret a).

Definition bind {A B} (m : M A) (f : A -> M B) : M B :=
  match m with
  | (t, Ret a) => let '(t', o) := f a in (t ++ t', o)
  | (t, Panic msg) => (t, Panic msg)
  | (t, Exit code) => (t, Exit code)
  end.

Notation "x <- m ;; k" := (bind m (fun x => k))
  (at level 100, m at next level, right associativity).
Notation "m ;;; k" := (bind m (fun _ => k))
  (at level 100, k at level 100, right associativity).

Definition emit (e : Event) : M unit := ([e], Ret tt).
Definition panic {A} (msg : string) : M A := ([], Panic msg).
Definition os_Exit {A} (code : Z) : M A := ([], Exit code).

Definition trace {A} (m : M A) : list Event := fst m.
Definition outcome {A} (m : M A) : Outcome A := snd m.

(** Reading a field through a pointer that may be nil. *)
Definition deref {A} (p : option A) : M A :=
  match p with
  | Some a => ret a
  | None => panic "invalid memory address or nil pointer dereference"
  end.

(** ** The package *)

(** [session.Set(w, v, config)]: the codec is asked to write the cookie of
    [v] under [config].  Its error result is dropped by every caller. *)
Definition session_Set (v : sess) (cfg : session.Config) : M unit :=
  emit (EvSessionSet v cfg).

Definition http_Error (body : string) (code : Z) : M unit :=
  emit (EvHttpError body code).

Definition http_Redirect (target : string) (code : Z) : M unit :=
  emit (EvRedirect target code).

Definition log_Error (at_ msg : string) : M unit :=
  emit (EvLogError at_ msg).

(** [copy(key_array[:], key)] into a zeroed [[32]byte]. *)
Definition copy32 (key : list Z) : list Z :=
  firstn 32 (key ++ repeat 0%Z 32).

(** [keys(s)].  The argument is not used: the key is read from the
    environment variable KEY. *)
Definition keys (W : World) (s : string) : M (list (list Z)) :=
  emit (EvGetenv "KEY") ;;;
  match hex.DecodeString (os_Getenv W "KEY") with
  | None =>
      log_Error "keys" "Invalid Key Code" ;;;
      os_Exit 1
  | Some key =>
      if negb (length key =? 32)%nat then
        log_Error "keys" "Invalid Key Length" ;;;
        os_Exit 1
      else
        ret [copy32 key]
  end.

(** The assignment [conf.MaxAge = d]. *)
Definition with_MaxAge (conf : session.Config) (d : Z) : session.Config :=
  {| session.Name := session.Name conf;
     session.Path := session.Path conf;
     session.Domain := session.Domain conf;
     session.MaxAge := d;
     session.Keys := session.Keys conf |}.

(** The assignment [c.Name = name]. *)
Definition with_Name (c : session.Config) (name : string) : session.Config :=
  {| session.Name := name;
     session.Path := session.Path c;
     session.Domain := session.Domain c;
     session.MaxAge := session.MaxAge c;
     session.Keys := session.Keys c |}.

Definition sessionConfig (W : World) (h : OAuthHandler) : M session.Config :=
  ks <- keys W (Key h) ;;
  let c := {| session.Name := Name h;
              session.Path := Path h;
              session.Domain := Domain h;
              session.MaxAge := MaxAge h;
              session.Keys := ks |} in
  if String.eqb (session.Name c) "" then ret (with_Name c "googlegoauth")
  else ret c.

Definition deleteCookie (W : World) (h : OAuthHandler) : M unit :=
  conf <- sessionConfig W h ;;
  session_Set sess_zero (with_MaxAge conf (-1 * time_Second)%Z).

(** [newState()]: ten bytes from the random source, in hexadecimal.  A
    short read leaves the rest of the zeroed buffer as it is; the error of
    [rand.Read] is not looked at. *)
Definition newState (W : World) : M string :=
  emit (EvRandRead 10) ;;;
  let b := firstn 10 (entropy W ++ repeat 0%Z 10) in
  ret (hex.EncodeToString b).

Definition profileURL : string := "https://www.googleapis.com/oauth2/v1/userinfo".

(** [domainAllowed(client, domain)].  [resp] is a pointer: reading
    [resp.StatusCode] goes through [deref]. *)
Definition domainAllowed (W : World) (client : http.Client) (domain : string) : M bool :=
  emit (EvClientGet client profileURL) ;;;
  let '(resp, err) := client_Get W client profileURL in
  failed <- match err with
            | Some _ => ret true
            | None => r <- deref resp ;; ret (negb (http.StatusCode r =? 200)%Z)
            end ;;
  if (failed : bool) then
    deref resp ;;;
    log_Error "domainAllowed" "Couldn't reach Google" ;;;
    ret false
  else
    r <- deref resp ;;
    match json_Decode W (http.Body r) with
    | None =>
        log_Error "domainAllowed" "Failed to decode json" ;;;
        emit EvBodyClose ;;;
        ret false
    | Some gp =>
        let user := strings.Split (Email gp) "@"%char in
        invalid <- (if (length user <? 2)%nat then ret true
                    else match nth_error user 1 with
                         | Some u1 => ret (negb (String.eqb u1 domain))
                         | None => panic "index out of range"
                         end) ;;
        if (invalid : bool) then
          log_Error "domainAllowed" "Invalid email" ;;;
          emit EvBodyClose ;;;
          ret false
        else
          emit EvBodyClose ;;;
          ret true
    end.

Definition defaultScopes : list string :=
  [ "https://www.googleapis.com/auth/userinfo.email";
    "https://www.googleapis.com/auth/userinfo.profile" ]%string.

(** The [oauth2.Config] that [loginOk] builds for a request. *)
Definition oauthConfig (W : World) (h : OAuthHandler) (r : http.Request) : oauth2.Config :=
  let redirectURL := ("https://" +:+ http.Host r +:+ callbackPath)%string in
  {| oauth2.ClientID := ClientID h;
     oauth2.ClientSecret := ClientSecret h;
     oauth2.RedirectURL := redirectURL;
     oauth2.Scopes := match Scopes h with
                      | None => Some defaultScopes
                      | Some s => Some s
                      end;
     oauth2.Endpoint_ := Endpoint W |}.

(** [conf.Client(ctx, t)] *)
Definition conf_Client (conf : oauth2.Config) (t : oauth2.Token) : http.Client :=
  {| http.conf := conf; http.token := t |}.

(** The URL of the request with scheme https and the host of the request. *)
Definition httpsURL (r : http.Request) : url.URL :=
  let u := http.URL r in
  {| url.Scheme := "https";
     url.Opaque := url.Opaque u;
     url.Host := http.Host r;
     url.Path := url.Path u;
     url.RawQuery := url.RawQuery u;
     url.Fragment := url.Fragment u |}.

(** [loginOk]: is the user logged in and authorized?  If not, one step of
    the OAuth flow is performed. *)
Definition loginOk (W : World) (h : OAuthHandler) (ctx : Context) (r : http.Request)
  : M (Context * bool) :=
  cfg <- sessionConfig W h ;;
  emit (EvSessionGet cfg) ;;;
  match session_Get W r cfg with
  | GetError _ =>
      deleteCookie W h ;;;
      http_Error "internal error" 500 ;;;
      ret (ctx, false)
  | got =>
      let user := match got with GetOk v => v | _ => sess_zero end in
      let conf := oauthConfig W h r in
      match OAuthToken user with
      | Some tok =>
          cfg' <- sessionConfig W h ;;
          session_Set user cfg' ;;;
          ret (context_WithValue ctx sessionKey {| Client := conf_Client conf tok |}, true)
      | None =>
          if String.eqb (url.Path (http.URL r)) callbackPath then
            if negb (String.eqb (http.FormValue r "state") (State user)) then
              deleteCookie W h ;;;
              log_Error "loginOK" "Mismatched state" ;;;
              http_Error "access forbidden" 401 ;;;
              ret (ctx, false)
            else
              emit (EvExchange conf (http.FormValue r "code")) ;;;
              match Exchange W conf (http.FormValue r "code") with
              | None =>
                  deleteCookie W h ;;;
                  log_Error "loginOK" "Invalid credentials" ;;;
                  http_Error "access forbidden" 401 ;;;
                  ret (ctx, false)
              | Some tok =>
                  let client := conf_Client conf tok in
                  denied <- (if negb (String.eqb (RequireDomain h) "") then
                               ok <- domainAllowed W client (RequireDomain h) ;;
                               ret (negb ok)
                             else ret false) ;;
                  if (denied : bool) then
                    deleteCookie W h ;;;
                    http_Error "access forbidden" 401 ;;;
                    ret (ctx, false)
                  else
                    cfg' <- sessionConfig W h ;;
                    session_Set {| OAuthToken := Some tok;
                                   NextURL := EmptyString;
                                   State := EmptyString |} cfg' ;;;
                    http_Redirect (NextURL user) http.StatusTemporaryRedirect ;;;
                    ret (ctx, false)
              end
          else
            state <- newState W ;;
            cfg' <- sessionConfig W h ;;
            session_Set {| OAuthToken := None;
                           NextURL := URL_String W (httpsURL r);
                           State := state |} cfg' ;;;
            http_Redirect (AuthCodeURL W conf state) http.StatusTemporaryRedirect ;;;
            ret (ctx, false)
      end
  end.

Definition ServeHTTPContext (W : World) (h : OAuthHandler) (ctx : Context) (r : http.Request)
  : M unit :=
  let handler := match Handler_ h with
                 | None => DefaultServeMux
                 | Some hd => hd
                 end in
  res <- loginOk W h ctx r ;;
  let '(ctx', ok) := res in
  if (ok : bool) then
    match handler with
    | ContextAware _ => emit (EvServeHTTPContext handler ctx')
    | PlainHandler _ => emit (EvServeHTTP handler)
    end
  else ret tt.

Definition ServeHTTP (W : World) (h : OAuthHandler) (r : http.Request) : M unit :=
  ServeHTTPContext W h context_Background r.

(** Several requests in a row, each with the answers the collaborators give
    while it is handled. *)
Fixpoint serveAll (h : OAuthHandler) (reqs : list (World * http.Request)) : M unit :=
  match reqs with
  | [] => ret tt
  | (W, r) :: rest => ServeHTTP W h r ;;; serveAll h rest
  end.

(** ** What a trace shows *)

Definition is_response (e : Event) : bool :=
  match e with
  | EvHttpError _ _ | EvRedirect _ _ => true
  | _ => false
  end.

Definition is_handler_call (e : Event) : bool :=
  match e with
  | EvServeHTTP _ | EvServeHTTPContext _ _ => true
  | _ => false
  end.

Definition is_exchange (e : Event) : bool :=
  match e with
  | EvExchange _ _ => true
  | _ => false
  end.

Definition is_profile_fetch (e : Event) : bool :=
  match e with
  | EvClientGet _ _ => true
  | _ => false
  end.

(** The responses the gate wrote itself ([http.Error], [http.Redirect]). *)
Definition responses (t : list Event) : list Event := List.filter is_response t.

(** The calls of the protected handler. *)
Definition handler_calls (t : list Event) : list Event := List.filter is_handler_call t.

(** The token exchanges attempted. *)
Definition exchanges (t : list Event) : list Event := List.filter is_exchange t.

(** The profile requests of the Domain Verifier: one per call of
    [domainAllowed], whose first statement it is. *)
Definition profile_fetches (t : list Event) : list Event := List.filter is_profile_fetch t.

(** The cookies written: the record handed to [session.Set] and the
    max-age it was written with. *)
Fixpoint cookie_writes (t : list Event) : list (sess * Z) :=
  match t with
  | [] => []
  | EvSessionSet v cfg :: rest => (v, session.MaxAge cfg) :: cookie_writes rest
  | _ :: rest => cookie_writes rest
  end.

(** The status code of a response of the gate. *)
Definition status_of (e : Event) : Z :=
  match e with
  | EvHttpError _ code | EvRedirect _ code => code
  | _ => 0%Z
  end.

(** A cookie write that deletes the session: the empty record with a
    negative lifetime. *)
Definition deletion : sess * Z := (sess_zero, (-1 * time_Second)%Z).

(** The record [loginOk] finds in [user] after [session.Get]: the decoded
    session, the zero value when there is no cookie, and [None] when the
    codec reports any other error or the configuration cannot be built. *)
Definition session_of (W : World) (h : OAuthHandler) (r : http.Request) : option sess :=
  match outcome (sessionConfig W h) with
  | Ret cfg =>
      match session_Get W r cfg with
      | GetOk v => Some v
      | GetErrNoCookie => Some sess_zero
      | GetError _ => None
      end
  | _ => None
  end.

(** The cookie of the request failed to decode (any error of [session.Get]
    other than [http.ErrNoCookie]). *)
Definition decode_failed (W : World) (h : OAuthHandler) (r : http.Request) : bool :=
  match outcome (sessionConfig W h) with
  | Ret cfg =>
      match session_Get W r cfg with
      | GetError _ => true
      | _ => false
      end
  | _ => false
  end.

Definition on_callback_path (r : http.Request) : bool :=
  String.eqb (url.Path (http.URL r)) callbackPath.

(** The gate sent the caller into the login flow: its one response is a
    307 redirect to the provider's authorization URL. *)
Definition sent_to_login (W : World) (h : OAuthHandler) (r : http.Request) (t : list Event)
  : bool :=
  match responses t with
  | [EvRedirect target code] =>
      (code =? 307)%Z &&
      existsb (fun w => String.eqb target (AuthCodeURL W (oauthConfig W h r) (State (fst w))))
              (cookie_writes t)
  | _ => false
  end.

(** The email has exactly one [@] and what follows it is [domain]: the
    test the specification words. *)
Definition one_at_with_domain (email domain : string) : bool :=
  match strings.Split email "@"%char with
  | [_; d] => String.eqb d domain
  | _ => false
  end.

(** The test [domainAllowed] makes on the email (lines 199-200 of the
    source): there is a second piece and it is [domain]. *)
Definition email_accepted (email domain : string) : bool :=
  match strings.Split email "@"%char with
  | _ :: d :: _ => String.eqb d domain
  | _ => false
  end.

(** The session of the request holds a token. *)
Definition has_token (W : World) (h : OAuthHandler) (r : http.Request) : bool :=
  match session_of W h r with
  | Some user => match OAuthToken user with Some _ => true | None => false end
  | None => false
  end.

(** The handler the gate protects, and the call it receives when the gate
    lets a request through: a context-aware handler gets the context, a
    plain one does not. *)
Definition handlerOf (h : OAuthHandler) : Handler :=
  match Handler_ h with
  | None => DefaultServeMux
  | Some hd => hd
  end.

Definition handler_event (h : OAuthHandler) (ctx : Context) : Event :=
  match handlerOf h with
  | ContextAware _ => EvServeHTTPContext (handlerOf h) ctx
  | PlainHandler _ => EvServeHTTP (handlerOf h)
  end.

(** A value that fits a byte. *)
Definition is_byte (v : Z) : bool := ((0 <=? v) && (v <? 256))%Z.

(** The two digits of the byte [n] decode to [n] again. *)
Definition digits_decode (n : Z) : bool :=
  match hex.fromHexChar (hex.digit (Z.shiftr n 4)),
        hex.fromHexChar (hex.digit (Z.land n 15)) with
  | Some a, Some b => (Z.lor (Z.shiftl a 4) b =? n)%Z
  | _, _ => false
  end.

(** ** Sample data *)

Definition key64 : string :=
  "faba0c08be7474a785b272c4f4154c998c0943b51e662637be11b1a0ecda43b3".

Definition sampleToken : oauth2.Token :=
  {| oauth2.AccessToken := "ya29.a0AfH6SM";
     oauth2.TokenType := "Bearer";
     oauth2.RefreshToken := "";
     oauth2.Expiry := 1700000000 |}.

Definition googleEndpoint : oauth2.Endpoint :=
  {| oauth2.AuthURL := "https://accounts.google.com/o/oauth2/auth";
     oauth2.TokenURL := "https://accounts.google.com/o/oauth2/token" |}.

(** A world given by the environment and by one answer of each
    collaborator, whatever it is asked. *)
Definition sampleWorld (env : gmap string string) (got : GetResult)
    (tok : option oauth2.Token) (fetched : option http.Response * option string)
    (profile : option googleProfile) : World :=
  {| environ := env;
     Endpoint := googleEndpoint;
     entropy := [1; 2; 3; 4; 5; 6; 7; 8; 9; 255]%Z;
     session_Get := fun _ _ => got;
     Exchange := fun _ _ => tok;
     client_Get := fun _ _ => fetched;
     json_Decode := fun _ => profile;
     URL_String := fun u => (url.Scheme u +:+ "://" +:+ url.Host u +:+ url.Path u)%string;
     AuthCodeURL := fun c st =>
       (oauth2.AuthURL (oauth2.Endpoint_ c) +:+ "?state=" +:+ st)%string |}.

(** The 32 bytes of [key64]. *)
Definition sampleKey : list Z :=
  Eval vm_compute in
    match hex.DecodeString key64 with
    | Some k => k
    | None => []
    end.

Definition goodEnv : gmap string string := {[ "KEY"%string := key64 ]}.

Definition sampleHandler (requireDomain key : string) (hd : option Handler) : OAuthHandler :=
  {| RequireDomain := requireDomain;
     Name := "";
     Path := "/";
     Domain := "";
     MaxAge := (3600 * time_Second)%Z;
     Key := key;
     ClientID := "client-id";
     ClientSecret := "client-secret";
     Scopes := None;
     Handler_ := hd |}.

Definition sampleRequest (path : string) (form : gmap string (list string)) : http.Request :=
  {| http.Method := "GET";
     http.URL := {| url.Scheme := ""; url.Opaque := ""; url.Host := "";
                    url.Path := path; url.RawQuery := ""; url.Fragment := "" |};
     http.Host := "app.example.com";
     http.Form := form;
     http.Cookie := "" |}.

Definition sampleProfile (email : string) : googleProfile :=
  {| ID := "1"; DisplayName := "E"; FamilyName := "E"; GivenName := "E"; Email := email |}.

Definition pendingSession : sess :=
  {| OAuthToken := None;
     NextURL := "https://app.example.com/dashboard";
     State := "010203040506070809ff" |}.

Definition activeSession : sess :=
  {| OAuthToken := Some sampleToken; NextURL := ""; State := "" |}.

Definition networkError : option http.Response * option string :=
  (None, Some "dial tcp: i/o timeout"%string).

Definition profileOK : option http.Response * option string :=
  (Some {| http.StatusCode := 200; http.Body := "{}" |}, None).

Definition callbackForm : gmap string (list string) :=
  {[ "state"%string := ["010203040506070809ff"%string];
     "code"%string := ["4/P7q7W91a-oMsCeLvIaQm6bTrgtp7"%string] ]}.

(** The browser coming back from the provider. *)
Definition callbackRequest : http.Request := sampleRequest callbackPath callbackForm.

(** A request for the callback path with an authorization code and no
    [state] parameter. *)
Definition forgedCallback : http.Request :=
  sampleRequest callbackPath {[ "code"%string := ["4/attacker-code"%string] ]}.

Definition dashboardRequest : http.Request := sampleRequest "/dashboard" ∅.

Definition reportsRequest : http.Request := sampleRequest "/reports/2015" ∅.

(** No cookie; the provider accepts any code. *)
Definition anonymousWorld : World :=
  sampleWorld goodEnv GetErrNoCookie (Some sampleToken) profileOK
    (Some (sampleProfile "eve@heroku.com")).

(** The cookie of a login in flight; the account is in the domain. *)
Definition pendingWorld : World :=
  sampleWorld goodEnv (GetOk pendingSession) (Some sampleToken) profileOK
    (Some (sampleProfile "eve@heroku.com")).

(** The cookie of a login in flight; the profile request fails on the
    network. *)
Definition unreachableWorld : World :=
  sampleWorld goodEnv (GetOk pendingSession) (Some sampleToken) networkError None.

(** The cookie of a login in flight; the email has two [@]. *)
Definition twoAtWorld : World :=
  sampleWorld goodEnv (GetOk pendingSession) (Some sampleToken) profileOK
    (Some (sampleProfile "eve@heroku.com@evil.example")).

(** The cookie of a completed login. *)
Definition activeWorld : World :=
  sampleWorld goodEnv (GetOk activeSession) None networkError None.

(** A cookie that does not decode. *)
Definition tamperedWorld : World :=
  sampleWorld goodEnv (GetError "session: invalid cookie") (Some sampleToken) profileOK
    (Some (sampleProfile "eve@heroku.com")).

(** KEY is not set in the environment. *)
Definition keylessWorld : World :=
  sampleWorld ∅ (GetOk activeSession) None networkError None.

(** A gate with a domain restriction and no key of its own. *)
Definition restrictedGate : OAuthHandler := sampleHandler "heroku.com" "" None.

(** A gate without domain restriction, its [Key] field set as documented. *)
Definition openGate : OAuthHandler := sampleHandler "" key64 (Some (ContextAware "app")).

(** ** More views of a trace *)

Definition is_getenv (e : Event) : bool :=
  match e with
  | EvGetenv _ => true
  | _ => false
  end.

Definition is_body_close (e : Event) : bool :=
  match e with
  | EvBodyClose => true
  | _ => false
  end.

(** The reads of the process environment. *)
Definition env_reads (t : list Event) : list Event := List.filter is_getenv t.

(** The times a response body was closed. *)
Definition body_closes (t : list Event) : list Event := List.filter is_body_close t.

(** The calls of [session.Set]: the record and the whole configuration it
    is written under. *)
Fixpoint session_sets (t : list Event) : list (sess * session.Config) :=
  match t with
  | [] => []
  | EvSessionSet v cfg :: rest => (v, cfg) :: session_sets rest
  | _ :: rest => session_sets rest
  end.

(** The name of the cookie: [Name], or the default of [sessionConfig]. *)
Definition cookieName (h : OAuthHandler) : string :=
  if String.eqb (Name h) "" then "googlegoauth"%string else Name h.

(** ** Hexadecimal strings *)

Definition is_hex_digit (c : ascii) : bool :=
  match hex.fromHexChar c with
  | Some _ => true
  | None => false
  end.

(** Every character is a hexadecimal digit, of either case. *)
Fixpoint all_hex (s : string) : bool :=
  match s with
  | EmptyString => true
  | String c rest => is_hex_digit c && all_hex rest
  end.



(** ** The ways through the gate *)

(** The runs [ServeHTTPContext] can make, one constructor for each way
    through [loginOk], with the conditions the code tests on that way. *)
Inductive GateRun (W : World) (h : OAuthHandler) (ctx : Context) (r : http.Request)
  : M unit -> Prop :=
| RunKeyFailure (msg : string) :
    sessionConfig W h = ([EvGetenv "KEY"; EvLogError "keys" msg], Exit 1%Z) ->
    GateRun W h ctx r ([EvGetenv "KEY"; EvLogError "keys" msg], Exit 1%Z)
| RunDecodeError (cfg : session.Config) :
    outcome (sessionConfig W h) = Ret cfg ->
    decode_failed W h r = true ->
    GateRun W h ctx r
      ([EvGetenv "KEY"; EvSessionGet cfg; EvGetenv "KEY";
        EvSessionSet sess_zero (with_MaxAge cfg (-1 * time_Second)%Z);
        EvHttpError "internal error" 500], Ret tt)
| RunAuthenticated (cfg : session.Config) (user : sess) (tok : oauth2.Token) :
    outcome (sessionConfig W h) = Ret cfg ->
    session_of W h r = Some user ->
    OAuthToken user = Some tok ->
    GateRun W h ctx r
      ([EvGetenv "KEY"; EvSessionGet cfg; EvGetenv "KEY"; EvSessionSet user cfg;
        handler_event h (context_WithValue ctx sessionKey
                           {| Client := conf_Client (oauthConfig W h r) tok |})],
       Ret tt)
| RunStartFlow (cfg : session.Config) (user : sess) :
    outcome (sessionConfig W h) = Ret cfg ->
    session_of W h r = Some user ->
    OAuthToken user = None ->
    on_callback_path r = false ->
    GateRun W h ctx r
      ([EvGetenv "KEY"; EvSessionGet cfg; EvRandRead 10; EvGetenv "KEY";
        EvSessionSet
          {| OAuthToken := None;
             NextURL := URL_String W (httpsURL r);
             State := hex.EncodeToString (firstn 10 (entropy W ++ repeat 0%Z 10)) |} cfg;
        EvRedirect (AuthCodeURL W (oauthConfig W h r)
                      (hex.EncodeToString (firstn 10 (entropy W ++ repeat 0%Z 10)))) 307],
       Ret tt)
| RunMismatch (cfg : session.Config) (user : sess) :
    outcome (sessionConfig W h) = Ret cfg ->
    session_of W h r = Some user ->
    OAuthToken user = None ->
    on_callback_path r = true ->
    http.FormValue r "state" <> State user ->
    GateRun W h ctx r
      ([EvGetenv "KEY"; EvSessionGet cfg; EvGetenv "KEY";
        EvSessionSet sess_zero (with_MaxAge cfg (-1 * time_Second)%Z);
        EvLogError "loginOK" "Mismatched state"; EvHttpError "access forbidden" 401],
       Ret tt)
| RunExchangeError (cfg : session.Config) (user : sess) :
    outcome (sessionConfig W h) = Ret cfg ->
    session_of W h r = Some user ->
    OAuthToken user = None ->
    on_callback_path r = true ->
    http.FormValue r "state" = State user ->
    Exchange W (oauthConfig W h r) (http.FormValue r "code") = None ->
    GateRun W h ctx r
      ([EvGetenv "KEY"; EvSessionGet cfg;
        EvExchange (oauthConfig W h r) (http.FormValue r "code");
        EvGetenv "KEY"; EvSessionSet sess_zero (with_MaxAge cfg (-1 * time_Second)%Z);
        EvLogError "loginOK" "Invalid credentials"; EvHttpError "access forbidden" 401],
       Ret tt)
| RunLoggedIn (cfg : session.Config) (user : sess) (tok : oauth2.Token) :
    outcome (sessionConfig W h) = Ret cfg ->
    session_of W h r = Some user ->
    OAuthToken user = None ->
    on_callback_path r = true ->
    http.FormValue r "state" = State user ->
    Exchange W (oauthConfig W h r) (http.FormValue r "code") = Some tok ->
    RequireDomain h = EmptyString \/
      outcome (domainAllowed W (conf_Client (oauthConfig W h r) tok) (RequireDomain h)) =
        Ret true ->
    GateRun W h ctx r
      ([EvGetenv "KEY"; EvSessionGet cfg;
        EvExchange (oauthConfig W h r) (http.FormValue r "code")] ++
       (if String.eqb (RequireDomain h) "" then []
        else trace (domainAllowed W (conf_Client (oauthConfig W h r) tok) (RequireDomain h))) ++
       [EvGetenv "KEY";
        EvSessionSet {| OAuthToken := Some tok; NextURL := ""; State := "" |} cfg;
        EvRedirect (NextURL user) 307], Ret tt)
| RunDomainDenied (cfg : session.Config) (user : sess) (tok : oauth2.Token) :
    outcome (sessionConfig W h) = Ret cfg ->
    session_of W h r = Some user ->
    OAuthToken user = None ->
    on_callback_path r = true ->
    http.FormValue r "state" = State user ->
    Exchange W (oauthConfig W h r) (http.FormValue r "code") = Some tok ->
    RequireDomain h <> EmptyString ->
    outcome (domainAllowed W (conf_Client (oauthConfig W h r) tok) (RequireDomain h)) =
      Ret false ->
    GateRun W h ctx r
      ([EvGetenv "KEY"; EvSessionGet cfg;
        EvExchange (oauthConfig W h r) (http.FormValue r "code")] ++
       trace (domainAllowed W (conf_Client (oauthConfig W h r) tok) (RequireDomain h)) ++
       [EvGetenv "KEY"; EvSessionSet sess_zero (with_MaxAge cfg (-1 * time_Second)%Z);
        EvHttpError "access forbidden" 401], Ret tt)
| RunDomainPanic (cfg : session.Config) (user : sess) (tok : oauth2.Token) (msg : string) :
    outcome (sessionConfig W h) = Ret cfg ->
    session_of W h r = Some user ->
    OAuthToken user = None ->
    on_callback_path r = true ->
    http.FormValue r "state" = State user ->
    Exchange W (oauthConfig W h r) (http.FormValue r "code") = Some tok ->
    RequireDomain h <> EmptyString ->
    outcome (domainAllowed W (conf_Client (oauthConfig W h r) tok) (RequireDomain h)) =
      Panic msg ->
    GateRun W h ctx r
      ([EvGetenv "KEY"; EvSessionGet cfg;
        EvExchange (oauthConfig W h r) (http.FormValue r "code")] ++
       trace (domainAllowed W (conf_Client (oauthConfig W h r) tok) (RequireDomain h)),
       Panic msg).

(** ** The example program ([examples/oauth_handler/main.go]) *)

(** The handler [main] builds: its fields come from the environment, the
    fields it does not set are zero, and the downstream handler is the
    [*http.ServeMux] of the program, a plain handler. *)
Definition behindGoogleOAuth (W : World) : OAuthHandler :=
  {| RequireDomain := os_Getenv W "REQUIRE_DOMAIN";
     Name := EmptyString;
     Path := EmptyString;
     Domain := EmptyString;
     MaxAge := 0%Z;
     Key := os_Getenv W "KEY";
     ClientID := os_Getenv W "CLIENT_ID";
     ClientSecret := os_Getenv W "CLIENT_SECRET";
     Scopes := None;
     Handler_ := Some (PlainHandler "mux") |}.

(** The environment of a deployment of the example, with a domain
    restriction, and an authenticated request in it. *)
Definition deployedEnv : gmap string string :=
  {[ "KEY"%string := key64;
     "REQUIRE_DOMAIN"%string := "heroku.com"%string;
     "CLIENT_ID"%string := "client-id"%string;
     "CLIENT_SECRET"%string := "client-secret"%string ]}.

Definition deployedWorld : World :=
  sampleWorld deployedEnv (GetOk activeSession) None networkError None.

(** The provider refuses the code. *)
Definition refusingWorld : World :=
  sampleWorld goodEnv (GetOk pendingSession) None profileOK None.

(** The account is in another domain. *)
Definition outsiderWorld : World :=
  sampleWorld goodEnv (GetOk pendingSession) (Some sampleToken) profileOK
    (Some (sampleProfile "mallory@evil.example")).

(** The profile endpoint answers 503. *)
Definition unavailableWorld : World :=
  sampleWorld goodEnv (GetOk pendingSession) (Some sampleToken)
    (Some {| http.StatusCode := 503; http.Body := "" |}, None) None.

(** Another draw of the random source. *)
Definition otherDrawWorld : World :=
  {| environ := goodEnv;
     Endpoint := googleEndpoint;
     entropy := [10; 20; 30; 40; 50; 60; 70; 80; 90; 100]%Z;
     session_Get := fun _ _ => GetErrNoCookie;
     Exchange := fun _ _ => None;
     client_Get := fun _ _ => networkError;
     json_Decode := fun _ => None;
     URL_String := URL_String anonymousWorld;
     AuthCodeURL := AuthCodeURL anonymousWorld |}.

(** The configuration [restrictedGate] deletes its cookie under. *)
Definition restrictedDeletion : session.Config :=
  with_MaxAge {| session.Name := "googlegoauth";
                 session.Path := "/";
                 session.Domain := "";
                 session.MaxAge := MaxAge restrictedGate;
                 session.Keys := [sampleKey] |} (-1 * time_Second)%Z.

(** KEY holds something that is no hexadecimal string. *)
Definition garbledKeyWorld : World :=
  sampleWorld {[ "KEY"%string := "not a key"%string ]} (GetOk activeSession) None
    networkError None.

(** KEY holds two bytes. *)
Definition shortKeyWorld : World :=
  sampleWorld {[ "KEY"%string := "faba"%string ]} (GetOk activeSession) None
    networkError None.

(** * Properties *)

(** ** Strings *)

Lemma Split_nonempty (s : string) (sep : ascii) : strings.Split s sep <> [].
Proof.
  destruct s as [|c rest]; simpl; [discriminate|].
  destruct (Ascii.eqb c sep); [discriminate|].
  destruct (strings.Split rest sep); discriminate.
Qed.

(** A prefix without the separator ends the first piece at the first
    separator. *)
Lemma Split_prefix (p rest : string) (sep : ascii) :
  strings.Count p sep = 0 ->
  strings.Split (p +:+ String sep rest) sep = p :: strings.Split rest sep.
Proof.
  induction p as [|c p IH]; simpl; intros Hc.
  - now rewrite Ascii.eqb_refl.
  - destruct (Ascii.eqb c sep); [discriminate|].
    simpl in Hc. now rewrite IH.
Qed.

Lemma Split_no_sep (p : string) (sep : ascii) :
  strings.Count p sep = 0 -> strings.Split p sep = [p].
Proof.
  induction p as [|c p IH]; simpl; intros Hc; [reflexivity|].
  destruct (Ascii.eqb c sep); [discriminate|].
  simpl in Hc. now rewrite IH.
Qed.

(** The pieces are one more than the separators. *)
Lemma Split_length (s : string) (sep : ascii) :
  length (strings.Split s sep) = S (strings.Count s sep).
Proof.
  induction s as [|c s IH]; simpl; [reflexivity|].
  destruct (Ascii.eqb c sep); simpl; [now rewrite IH|].
  destruct (strings.Split s sep) eqn:E; simpl in *; [discriminate|lia].
Qed.

(** ** The monad *)

Lemma trace_bind_prefix {A B} (m : M A) (f : A -> M B) :
  exists rest, trace (bind m f) = trace m ++ rest.
Proof.
  destruct m as [t [a| |]]; simpl.
  - destruct (f a) as [t' o]. simpl. eauto.
  - exists []. now rewrite app_nil_r.
  - exists []. now rewrite app_nil_r.
Qed.

(** ** Key material and cookie configuration *)

Section Config.

Variable W : World.
Variable h : OAuthHandler.

(** [keys] never looks at its argument. *)
Lemma keys_ignores_argument (s s' : string) : keys W s = keys W s'.
Proof. reflexivity. Qed.

Lemma keys_shape (s : string) (ks : list (list Z)) :
  outcome (keys W s) = Ret ks -> keys W s = ([EvGetenv "KEY"], Ret ks).
Proof.
  unfold keys. simpl.
  destruct (hex.DecodeString (os_Getenv W "KEY")) as [key|]; simpl; [|discriminate].
  destruct (negb (length key =? 32)%nat); simpl; [discriminate|].
  now intros [= <-].
Qed.

Lemma sessionConfig_shape (cfg : session.Config) :
  outcome (sessionConfig W h) = Ret cfg ->
  sessionConfig W h = ([EvGetenv "KEY"], Ret cfg).
Proof.
  unfold sessionConfig.
  destruct (keys W (Key h)) as [t [ks| |]] eqn:E; simpl; try discriminate.
  assert (Hk : outcome (keys W (Key h)) = Ret ks) by now rewrite E.
  apply keys_shape in Hk. rewrite E in Hk. injection Hk as ->.
  destruct (String.eqb (Name h) ""); simpl; now intros [= <-].
Qed.

Lemma sessionConfig_MaxAge (cfg : session.Config) :
  outcome (sessionConfig W h) = Ret cfg -> session.MaxAge cfg = MaxAge h.
Proof.
  unfold sessionConfig.
  destruct (keys W (Key h)) as [t [ks| |]]; simpl; try discriminate.
  destruct (String.eqb (Name h) ""); simpl; now intros [= <-].
Qed.

Lemma deleteCookie_shape (cfg : session.Config) :
  outcome (sessionConfig W h) = Ret cfg ->
  deleteCookie W h =
    ([EvGetenv "KEY";
      EvSessionSet sess_zero
        (with_MaxAge cfg (-1 * time_Second)%Z)], Ret tt).
Proof.
  intros Hc. unfold deleteCookie. rewrite (sessionConfig_shape cfg Hc). reflexivity.
Qed.

(** When the key cannot be loaded the configuration is never built: the
    process is terminated with status 1. *)
Lemma sessionConfig_exits_or_returns :
  (exists cfg, sessionConfig W h = ([EvGetenv "KEY"], Ret cfg)) \/
  (exists msg, sessionConfig W h = ([EvGetenv "KEY"; EvLogError "keys" msg], Exit 1%Z)).
Proof.
  unfold sessionConfig, keys. simpl.
  destruct (hex.DecodeString (os_Getenv W "KEY")) as [key|]; simpl; [|right; eauto].
  destruct (negb (length key =? 32)%nat); simpl; [right; eauto|].
  left. destruct (String.eqb (Name h) ""); simpl; eauto.
Qed.

End Config.

(** ** The Domain Verifier *)

Section DomainVerifier.

Variable W : World.
Variable client : http.Client.
Variable domain : string.

(** With an error and no response the error branch dereferences nil. *)
Lemma domainAllowed_nil_response (err : string) :
  client_Get W client profileURL = (None, Some err) ->
  domainAllowed W client domain =
    ([EvClientGet client profileURL],
     Panic "invalid memory address or nil pointer dereference").
Proof. intros H. unfold domainAllowed. rewrite H. reflexivity. Qed.

(** With an error and a response (a failed redirect check) it denies. *)
Lemma domainAllowed_error_with_response (resp : http.Response) (err : string) :
  client_Get W client profileURL = (Some resp, Some err) ->
  outcome (domainAllowed W client domain) = Ret false.
Proof. intros H. unfold domainAllowed. rewrite H. reflexivity. Qed.

(** On a decoded profile the answer is the test on the email. *)
Lemma domainAllowed_profile (resp : http.Response) (gp : googleProfile) :
  client_Get W client profileURL = (Some resp, None) ->
  http.StatusCode resp = 200%Z ->
  json_Decode W (http.Body resp) = Some gp ->
  outcome (domainAllowed W client domain) = Ret (email_accepted (Email gp) domain).
Proof.
  intros Hg Hs Hj. unfold domainAllowed, email_accepted.
  rewrite Hg. simpl. rewrite Hs. simpl. rewrite Hj.
  destruct (strings.Split (Email gp) "@") as [|a [|d tl]] eqn:E; simpl; try reflexivity.
  destruct (String.eqb d domain); reflexivity.
Qed.

(** [domainAllowed] writes no response, no cookie, calls no handler and
    exchanges no code; it fetches the profile once. *)
Lemma domainAllowed_quiet :
  let t := trace (domainAllowed W client domain) in
  responses t = [] /\ handler_calls t = [] /\ exchanges t = [] /\
  cookie_writes t = [] /\ profile_fetches t = [EvClientGet client profileURL].
Proof.
  unfold domainAllowed.
  destruct (client_Get W client profileURL) as [[resp|] [err|]]; simpl;
    try (repeat split; reflexivity).
  destruct (negb (http.StatusCode resp =? 200)%Z); simpl;
    try (repeat split; reflexivity).
  destruct (json_Decode W (http.Body resp)) as [gp|]; simpl;
    try (repeat split; reflexivity).
  destruct (strings.Split (Email gp) "@") as [|a [|d tl]]; simpl;
    try (repeat split; reflexivity).
  destruct (String.eqb d domain); simpl; repeat split; reflexivity.
Qed.

(** It never terminates the process. *)
Lemma domainAllowed_no_exit (code : Z) :
  outcome (domainAllowed W client domain) <> Exit code.
Proof.
  unfold domainAllowed.
  destruct (client_Get W client profileURL) as [[resp|] [err|]]; simpl;
    try discriminate.
  destruct (negb (http.StatusCode resp =? 200)%Z); simpl; try discriminate.
  destruct (json_Decode W (http.Body resp)) as [gp|]; simpl; try discriminate.
  destruct (strings.Split (Email gp) "@") as [|a [|d tl]]; simpl; try discriminate.
  destruct (String.eqb d domain); simpl; discriminate.
Qed.

End DomainVerifier.

(** ** The branches of [loginOk] *)

Section Gate.

Variable W : World.
Variable h : OAuthHandler.
Variable ctx : Context.
Variable r : http.Request.
Variable cfg : session.Config.
Hypothesis Hcfg : outcome (sessionConfig W h) = Ret cfg.


Ltac enter :=
  unfold loginOk;
  rewrite ?(deleteCookie_shape W h cfg Hcfg), ?(sessionConfig_shape W h cfg Hcfg).

Lemma session_of_cases (user : sess) :
  session_of W h r = Some user ->
  session_Get W r cfg = GetOk user \/
  (session_Get W r cfg = GetErrNoCookie /\ user = sess_zero).
Proof using Hcfg.
  unfold session_of. rewrite Hcfg.
  destruct (session_Get W r cfg); intros [= <-]; auto.
Qed.

Lemma loginOk_decode_error :
  decode_failed W h r = true ->
  loginOk W h ctx r =
    ([EvGetenv "KEY"; EvSessionGet cfg; EvGetenv "KEY";
      EvSessionSet sess_zero (with_MaxAge cfg (-1 * time_Second)%Z);
      EvHttpError "internal error" 500], Ret (ctx, false)).
Proof using Hcfg.
  unfold decode_failed. rewrite Hcfg. intros Hd. enter. simpl.
  destruct (session_Get W r cfg); try discriminate. reflexivity.
Qed.

Lemma loginOk_authenticated (user : sess) (tok : oauth2.Token) :
  session_of W h r = Some user ->
  OAuthToken user = Some tok ->
  loginOk W h ctx r =
    ([EvGetenv "KEY"; EvSessionGet cfg; EvGetenv "KEY"; EvSessionSet user cfg],
     Ret (context_WithValue ctx sessionKey {| Client := conf_Client (oauthConfig W h r) tok |},
          true)).
Proof using Hcfg.
  intros Hu Ht. enter. simpl.
  destruct (session_of_cases user Hu) as [-> | [-> ->]]; [|discriminate].
  rewrite Ht. reflexivity.
Qed.

Lemma loginOk_mismatch (user : sess) :
  session_of W h r = Some user ->
  OAuthToken user = None ->
  on_callback_path r = true ->
  http.FormValue r "state" <> State user ->
  loginOk W h ctx r =
    ([EvGetenv "KEY"; EvSessionGet cfg; EvGetenv "KEY";
      EvSessionSet sess_zero (with_MaxAge cfg (-1 * time_Second)%Z);
      EvLogError "loginOK" "Mismatched state"; EvHttpError "access forbidden" 401],
     Ret (ctx, false)).
Proof using Hcfg.
  intros Hu Ht Hp Hs. unfold on_callback_path in Hp. enter. simpl.
  apply String.eqb_neq in Hs.
  destruct (session_of_cases user Hu) as [-> | [-> ->]]; simpl in Hs;
    rewrite ?Ht, Hp, Hs; reflexivity.
Qed.

Lemma loginOk_exchange_error (user : sess) :
  session_of W h r = Some user ->
  OAuthToken user = None ->
  on_callback_path r = true ->
  http.FormValue r "state" = State user ->
  Exchange W (oauthConfig W h r) (http.FormValue r "code") = None ->
  loginOk W h ctx r =
    ([EvGetenv "KEY"; EvSessionGet cfg; EvExchange (oauthConfig W h r) (http.FormValue r "code");
      EvGetenv "KEY"; EvSessionSet sess_zero (with_MaxAge cfg (-1 * time_Second)%Z);
      EvLogError "loginOK" "Invalid credentials"; EvHttpError "access forbidden" 401],
     Ret (ctx, false)).
Proof using Hcfg.
  intros Hu Ht Hp Hs Hx. unfold on_callback_path in Hp. enter. simpl.
  apply String.eqb_eq in Hs.
  destruct (session_of_cases user Hu) as [-> | [-> ->]]; simpl in Hs;
    rewrite ?Ht, Hp, Hs, Hx; reflexivity.
Qed.

(** After a successful exchange everything hangs on the domain check. *)
Lemma loginOk_exchanged (user : sess) (tok : oauth2.Token) :
  session_of W h r = Some user ->
  OAuthToken user = None ->
  on_callback_path r = true ->
  http.FormValue r "state" = State user ->
  Exchange W (oauthConfig W h r) (http.FormValue r "code") = Some tok ->
  loginOk W h ctx r =
    (([EvGetenv "KEY"; EvSessionGet cfg;
       EvExchange (oauthConfig W h r) (http.FormValue r "code")], Ret tt) ;;;
     denied <- (if negb (String.eqb (RequireDomain h) "") then
                  ok <- domainAllowed W (conf_Client (oauthConfig W h r) tok) (RequireDomain h) ;;
                  ret (negb ok)
                else ret false) ;;
     if (denied : bool) then
       ([EvGetenv "KEY"; EvSessionSet sess_zero (with_MaxAge cfg (-1 * time_Second)%Z);
         EvHttpError "access forbidden" 401], Ret (ctx, false))
     else
       ([EvGetenv "KEY";
         EvSessionSet {| OAuthToken := Some tok; NextURL := ""; State := "" |} cfg;
         EvRedirect (NextURL user) 307], Ret (ctx, false))).
Proof using Hcfg.
  intros Hu Ht Hp Hs Hx. unfold on_callback_path in Hp. enter. simpl.
  apply String.eqb_eq in Hs.
  destruct (session_of_cases user Hu) as [-> | [-> ->]]; simpl in Hs;
    rewrite ?Ht, Hp, Hs, Hx; simpl;
    destruct (negb (String.eqb (RequireDomain h) "")); simpl;
    try reflexivity;
    destruct (domainAllowed W (conf_Client (oauthConfig W h r) tok) (RequireDomain h))
      as [t [[|]| |]];
    reflexivity.
Qed.

Lemma loginOk_start_flow (user : sess) :
  session_of W h r = Some user ->
  OAuthToken user = None ->
  on_callback_path r = false ->
  loginOk W h ctx r =
    ([EvGetenv "KEY"; EvSessionGet cfg; EvRandRead 10; EvGetenv "KEY";
      EvSessionSet {| OAuthToken := None;
                      NextURL := URL_String W (httpsURL r);
                      State := hex.EncodeToString (firstn 10 (entropy W ++ repeat 0%Z 10)) |} cfg;
      EvRedirect (AuthCodeURL W (oauthConfig W h r)
                    (hex.EncodeToString (firstn 10 (entropy W ++ repeat 0%Z 10)))) 307],
     Ret (ctx, false)).
Proof using Hcfg.
  intros Hu Ht Hp. unfold on_callback_path in Hp. enter. simpl.
  destruct (session_of_cases user Hu) as [-> | [-> ->]];
    rewrite ?Ht, Hp; reflexivity.
Qed.

End Gate.

(** ** From [loginOk] to the handler *)

Lemma ServeHTTPContext_Ret (W : World) (h : OAuthHandler) (ctx ctx' : Context)
    (r : http.Request) (t : list Event) (ok : bool) :
  loginOk W h ctx r = (t, Ret (ctx', ok)) ->
  ServeHTTPContext W h ctx r =
    (t ++ (if ok then [handler_event h ctx'] else []), Ret tt).
Proof.
  intros H. unfold ServeHTTPContext, handler_event, handlerOf. rewrite H. simpl.
  destruct ok; [|reflexivity].
  destruct (Handler_ h) as [[n|n]|]; reflexivity.
Qed.

Lemma ServeHTTPContext_Panic (W : World) (h : OAuthHandler) (ctx : Context)
    (r : http.Request) (t : list Event) (msg : string) :
  loginOk W h ctx r = (t, Panic msg) ->
  ServeHTTPContext W h ctx r = (t, Panic msg).
Proof. intros H. unfold ServeHTTPContext. now rewrite H. Qed.

Lemma ServeHTTPContext_Exit (W : World) (h : OAuthHandler) (ctx : Context)
    (r : http.Request) (t : list Event) (code : Z) :
  loginOk W h ctx r = (t, Exit code) ->
  ServeHTTPContext W h ctx r = (t, Exit code).
Proof. intros H. unfold ServeHTTPContext. now rewrite H. Qed.

Lemma responses_app (t u : list Event) : responses (t ++ u) = responses t ++ responses u.
Proof. apply List.filter_app. Qed.

Lemma handler_calls_app (t u : list Event) :
  handler_calls (t ++ u) = handler_calls t ++ handler_calls u.
Proof. apply List.filter_app. Qed.

Lemma exchanges_app (t u : list Event) : exchanges (t ++ u) = exchanges t ++ exchanges u.
Proof. apply List.filter_app. Qed.

Lemma profile_fetches_app (t u : list Event) :
  profile_fetches (t ++ u) = profile_fetches t ++ profile_fetches u.
Proof. apply List.filter_app. Qed.

Lemma cookie_writes_app (t u : list Event) :
  cookie_writes (t ++ u) = cookie_writes t ++ cookie_writes u.
Proof.
  induction t as [|e t IH]; simpl; [reflexivity|].
  destruct e; simpl; now rewrite IH.
Qed.

Lemma handler_calls_event (h : OAuthHandler) (ctx : Context) :
  handler_calls [handler_event h ctx] = [handler_event h ctx].
Proof. unfold handler_event. destruct (handlerOf h); reflexivity. Qed.

Lemma responses_handler_event (h : OAuthHandler) (ctx : Context) :
  responses [handler_event h ctx] = [].
Proof. unfold handler_event. destruct (handlerOf h); reflexivity. Qed.

Lemma exchanges_handler_event (h : OAuthHandler) (ctx : Context) :
  exchanges [handler_event h ctx] = [].
Proof. unfold handler_event. destruct (handlerOf h); reflexivity. Qed.

Lemma profile_fetches_handler_event (h : OAuthHandler) (ctx : Context) :
  profile_fetches [handler_event h ctx] = [].
Proof. unfold handler_event. destruct (handlerOf h); reflexivity. Qed.

Lemma cookie_writes_handler_event (h : OAuthHandler) (ctx : Context) :
  cookie_writes [handler_event h ctx] = [].
Proof. unfold handler_event. destruct (handlerOf h); reflexivity. Qed.

Lemma session_of_config (W : World) (h : OAuthHandler) (r : http.Request) (user : sess) :
  session_of W h r = Some user -> exists cfg, outcome (sessionConfig W h) = Ret cfg.
Proof.
  unfold session_of. destruct (outcome (sessionConfig W h)); try discriminate. eauto.
Qed.

Lemma decode_failed_config (W : World) (h : OAuthHandler) (r : http.Request) :
  decode_failed W h r = true -> exists cfg, outcome (sessionConfig W h) = Ret cfg.
Proof.
  unfold decode_failed. destruct (outcome (sessionConfig W h)); try discriminate. eauto.
Qed.

(** The whole run of an authenticated request. *)
Lemma ServeHTTPContext_authenticated (W : World) (h : OAuthHandler) (ctx : Context)
    (r : http.Request) (cfg : session.Config) (user : sess) (tok : oauth2.Token) :
  outcome (sessionConfig W h) = Ret cfg ->
  session_of W h r = Some user ->
  OAuthToken user = Some tok ->
  ServeHTTPContext W h ctx r =
    ([EvGetenv "KEY"; EvSessionGet cfg; EvGetenv "KEY"; EvSessionSet user cfg;
      handler_event h (context_WithValue ctx sessionKey
                         {| Client := conf_Client (oauthConfig W h r) tok |})],
     Ret tt).
Proof.
  intros Hc Hu Ht.
  now rewrite (ServeHTTPContext_Ret _ _ _ _ _ _ _
                 (loginOk_authenticated W h ctx r cfg Hc user tok Hu Ht)).
Qed.

(** Either the key cannot be loaded, or the cookie fails to decode, or
    [loginOk] has a session record to work with. *)
Lemma gate_cases (W : World) (h : OAuthHandler) (r : http.Request) :
  (exists msg, sessionConfig W h = ([EvGetenv "KEY"; EvLogError "keys" msg], Exit 1%Z)) \/
  (exists cfg, outcome (sessionConfig W h) = Ret cfg /\
               (decode_failed W h r = true \/ exists user, session_of W h r = Some user)).
Proof.
  destruct (sessionConfig_exits_or_returns W h) as [[cfg Hc] | Hx]; [right | now left].
  exists cfg. split; [now rewrite Hc|].
  unfold decode_failed, session_of. rewrite Hc. simpl.
  destruct (session_Get W r cfg); eauto.
Qed.

Lemma ServeHTTPContext_key_failure (W : World) (h : OAuthHandler) (ctx : Context)
    (r : http.Request) (msg : string) :
  sessionConfig W h = ([EvGetenv "KEY"; EvLogError "keys" msg], Exit 1%Z) ->
  ServeHTTPContext W h ctx r = ([EvGetenv "KEY"; EvLogError "keys" msg], Exit 1%Z).
Proof.
  intros H. apply ServeHTTPContext_Exit. unfold loginOk. now rewrite H.
Qed.

Lemma ServeHTTPContext_decode_error (W : World) (h : OAuthHandler) (ctx : Context)
    (r : http.Request) (cfg : session.Config) :
  outcome (sessionConfig W h) = Ret cfg ->
  decode_failed W h r = true ->
  ServeHTTPContext W h ctx r =
    ([EvGetenv "KEY"; EvSessionGet cfg; EvGetenv "KEY";
      EvSessionSet sess_zero
        (with_MaxAge cfg (-1 * time_Second)%Z);
      EvHttpError "internal error" 500], Ret tt).
Proof.
  intros Hc Hd.
  now rewrite (ServeHTTPContext_Ret _ _ _ _ _ _ _ (loginOk_decode_error W h ctx r cfg Hc Hd)).
Qed.

Lemma ServeHTTPContext_start_flow (W : World) (h : OAuthHandler) (ctx : Context)
    (r : http.Request) (cfg : session.Config) (user : sess) :
  outcome (sessionConfig W h) = Ret cfg ->
  session_of W h r = Some user ->
  OAuthToken user = None ->
  on_callback_path r = false ->
  ServeHTTPContext W h ctx r =
    ([EvGetenv "KEY"; EvSessionGet cfg; EvRandRead 10; EvGetenv "KEY";
      EvSessionSet {| OAuthToken := None;
                      NextURL := URL_String W (httpsURL r);
                      State := hex.EncodeToString (firstn 10 (entropy W ++ repeat 0%Z 10)) |} cfg;
      EvRedirect (AuthCodeURL W (oauthConfig W h r)
                    (hex.EncodeToString (firstn 10 (entropy W ++ repeat 0%Z 10)))) 307],
     Ret tt).
Proof.
  intros Hc Hu Ht Hp.
  now rewrite (ServeHTTPContext_Ret _ _ _ _ _ _ _
                 (loginOk_start_flow W h ctx r cfg Hc user Hu Ht Hp)).
Qed.

Lemma has_token_inv (W : World) (h : OAuthHandler) (r : http.Request) :
  has_token W h r = true ->
  exists user tok, session_of W h r = Some user /\ OAuthToken user = Some tok.
Proof.
  unfold has_token. destruct (session_of W h r) as [user|]; [|discriminate].
  destruct (OAuthToken user) as [tok|] eqn:E; [|discriminate]. eauto.
Qed.

(** ** Hexadecimal states *)

Lemma EncodeToString_length (l : list Z) :
  String.length (hex.EncodeToString l) = 2 * length l.
Proof. induction l as [|v l IH]; simpl; [reflexivity|]. rewrite IH. lia. Qed.

Lemma byte_digits (v : Z) : is_byte v = true -> digits_decode v = true.
Proof.
  intros Hb.
  assert (All : forallb (fun n => digits_decode (Z.of_nat n)) (List.seq 0 256) = true)
    by (vm_compute; reflexivity).
  rewrite forallb_forall in All.
  unfold is_byte in Hb. apply andb_prop in Hb as [Hlo Hhi].
  apply Z.leb_le in Hlo. apply Z.ltb_lt in Hhi.
  specialize (All (Z.to_nat v)). rewrite Z2Nat.id in All by assumption.
  apply All, in_seq. lia.
Qed.

(** Decoding undoes encoding, on bytes. *)
Lemma DecodeString_EncodeToString (l : list Z) :
  forallb is_byte l = true ->
  hex.DecodeString (hex.EncodeToString l) = Some l.
Proof.
  induction l as [|v l IH]; [reflexivity|].
  cbn [forallb]. intros H. apply andb_prop in H as [Hv Hl].
  apply byte_digits in Hv. unfold digits_decode in Hv.
  cbn [hex.EncodeToString hex.DecodeString].
  destruct (hex.fromHexChar (hex.digit (Z.shiftr v 4))) as [a|]; [|discriminate].
  destruct (hex.fromHexChar (hex.digit (Z.land v 15))) as [b|]; [|discriminate].
  apply Z.eqb_eq in Hv. now rewrite (IH Hl), Hv.
Qed.

(** Different bytes give different strings. *)
Lemma EncodeToString_injective (l l' : list Z) :
  forallb is_byte l = true -> forallb is_byte l' = true ->
  hex.EncodeToString l = hex.EncodeToString l' -> l = l'.
Proof.
  intros Hl Hl' E.
  apply DecodeString_EncodeToString in Hl, Hl'. rewrite E in Hl. congruence.
Qed.

Lemma newState_value (W : World) :
  newState W =
    ([EvRandRead 10], Ret (hex.EncodeToString (firstn 10 (entropy W ++ repeat 0%Z 10)))).
Proof. reflexivity. Qed.

(** A state is twenty characters long, whatever the random source gave. *)
Lemma newState_length (W : World) (st : string) :
  outcome (newState W) = Ret st -> String.length st = 20.
Proof.
  rewrite newState_value. unfold outcome. cbn [snd]. intros [= <-].
  rewrite EncodeToString_length, length_firstn, length_app. simpl length. lia.
Qed.

(** The state is the random draw and nothing else: two full draws of ten
    bytes that differ give states that differ. *)
Lemma newState_injective (W W' : World) (st : string) :
  length (entropy W) = 10 -> length (entropy W') = 10 ->
  forallb is_byte (entropy W) = true -> forallb is_byte (entropy W') = true ->
  outcome (newState W) = Ret st -> outcome (newState W') = Ret st ->
  entropy W = entropy W'.
Proof.
  intros L L' B B'. rewrite !newState_value. unfold outcome. cbn [snd].
  rewrite !firstn_app, L, L'.
  rewrite (firstn_all2 (entropy W)), (firstn_all2 (entropy W')) by lia.
  cbn [Nat.sub firstn]. rewrite !app_nil_r.
  intros [= <-] [= E]. symmetry. now apply EncodeToString_injective.
Qed.

(** ** The gate: authenticated requests *)

(** C6. A request whose session decodes to a record with a token: the gate
    writes the same record again with the configured max-age (no deletion),
    [loginOk] answers true with a context that holds the client built from
    the stored token, the protected handler is called exactly once (with
    that context when it is context-aware), and the gate writes no response
    of its own, so it does not redirect.  The statement is about any such
    request, hence about each repetition of one. *)
Theorem authenticated_request_is_forwarded (W : World) (h : OAuthHandler) (ctx : Context)
    (r : http.Request) (user : sess) (tok : oauth2.Token) :
  session_of W h r = Some user ->
  OAuthToken user = Some tok ->
  outcome (ServeHTTPContext W h ctx r) = Ret tt /\
  cookie_writes (trace (ServeHTTPContext W h ctx r)) = [(user, MaxAge h)] /\
  outcome (loginOk W h ctx r) =
    Ret (context_WithValue ctx sessionKey {| Client := conf_Client (oauthConfig W h r) tok |},
         true) /\
  GetSession (context_WithValue ctx sessionKey
                {| Client := conf_Client (oauthConfig W h r) tok |}) =
    Some {| Client := conf_Client (oauthConfig W h r) tok |} /\
  handler_calls (trace (ServeHTTPContext W h ctx r)) =
    [handler_event h (context_WithValue ctx sessionKey
                        {| Client := conf_Client (oauthConfig W h r) tok |})] /\
  responses (trace (ServeHTTPContext W h ctx r)) = [].
Proof.
  intros Hu Ht.
  destruct (session_of_config W h r user Hu) as [cfg Hc].
  rewrite (ServeHTTPContext_authenticated W h ctx r cfg user tok Hc Hu Ht).
  rewrite (loginOk_authenticated W h ctx r cfg Hc user tok Hu Ht).
  rewrite <- (sessionConfig_MaxAge W h cfg Hc).
  repeat split; unfold handler_event; destruct (handlerOf h); reflexivity.
Qed.

Lemma authenticated_request_is_forwarded_witness :
  outcome (ServeHTTPContext activeWorld openGate [] dashboardRequest) = Ret tt /\
  cookie_writes (trace (ServeHTTPContext activeWorld openGate [] dashboardRequest)) =
    [(activeSession, MaxAge openGate)] /\
  outcome (loginOk activeWorld openGate [] dashboardRequest) =
    Ret (context_WithValue [] sessionKey
           {| Client := conf_Client (oauthConfig activeWorld openGate dashboardRequest)
                          sampleToken |},
         true) /\
  GetSession (context_WithValue [] sessionKey
                {| Client := conf_Client (oauthConfig activeWorld openGate dashboardRequest)
                               sampleToken |}) =
    Some {| Client := conf_Client (oauthConfig activeWorld openGate dashboardRequest)
                        sampleToken |} /\
  handler_calls (trace (ServeHTTPContext activeWorld openGate [] dashboardRequest)) =
    [handler_event openGate
       (context_WithValue [] sessionKey
          {| Client := conf_Client (oauthConfig activeWorld openGate dashboardRequest)
                         sampleToken |})] /\
  responses (trace (ServeHTTPContext activeWorld openGate [] dashboardRequest)) = [].
Proof.
  apply (authenticated_request_is_forwarded activeWorld openGate [] dashboardRequest
           activeSession sampleToken).
  - reflexivity.
  - reflexivity.
Defined.

(** Scenario D of the specification, evaluated with a plain handler and
    with a context-aware one. *)
Example scenario_D :
  handler_calls (trace (ServeHTTP activeWorld restrictedGate dashboardRequest)) =
    [EvServeHTTP DefaultServeMux] /\
  handler_calls (trace (ServeHTTP activeWorld openGate dashboardRequest)) =
    [EvServeHTTPContext (ContextAware "app")
       [(sessionKey,
         {| Client := conf_Client (oauthConfig activeWorld openGate dashboardRequest)
                        sampleToken |})]] /\
  cookie_writes (trace (ServeHTTP activeWorld openGate dashboardRequest)) =
    [(activeSession, MaxAge openGate)].
Proof. vm_compute. repeat split. Qed.


(** ** The gate: callback requests *)

Section Callback.

Variable W : World.
Variable h : OAuthHandler.
Variable ctx : Context.
Variable r : http.Request.
Variable cfg : session.Config.
Variable user : sess.
Hypothesis Hcfg : outcome (sessionConfig W h) = Ret cfg.
Hypothesis Huser : session_of W h r = Some user.
Hypothesis Htok : OAuthToken user = None.
Hypothesis Hpath : on_callback_path r = true.


Lemma ServeHTTPContext_mismatch :
  http.FormValue r "state" <> State user ->
  ServeHTTPContext W h ctx r =
    ([EvGetenv "KEY"; EvSessionGet cfg; EvGetenv "KEY";
      EvSessionSet sess_zero (with_MaxAge cfg (-1 * time_Second)%Z);
      EvLogError "loginOK" "Mismatched state"; EvHttpError "access forbidden" 401],
     Ret tt).
Proof using Hcfg Huser Htok Hpath.
  intros Hs.
  now rewrite (ServeHTTPContext_Ret _ _ _ _ _ _ _
                 (loginOk_mismatch W h ctx r cfg Hcfg user Huser Htok Hpath Hs)).
Qed.

Lemma ServeHTTPContext_exchange_error :
  http.FormValue r "state" = State user ->
  Exchange W (oauthConfig W h r) (http.FormValue r "code") = None ->
  ServeHTTPContext W h ctx r =
    ([EvGetenv "KEY"; EvSessionGet cfg; EvExchange (oauthConfig W h r) (http.FormValue r "code");
      EvGetenv "KEY"; EvSessionSet sess_zero (with_MaxAge cfg (-1 * time_Second)%Z);
      EvLogError "loginOK" "Invalid credentials"; EvHttpError "access forbidden" 401],
     Ret tt).
Proof using Hcfg Huser Htok Hpath.
  intros Hs Hx.
  now rewrite (ServeHTTPContext_Ret _ _ _ _ _ _ _
                 (loginOk_exchange_error W h ctx r cfg Hcfg user Huser Htok Hpath Hs Hx)).
Qed.

Lemma ServeHTTPContext_exchanged (tok : oauth2.Token) :
  http.FormValue r "state" = State user ->
  Exchange W (oauthConfig W h r) (http.FormValue r "code") = Some tok ->
  ServeHTTPContext W h ctx r =
    (([EvGetenv "KEY"; EvSessionGet cfg;
       EvExchange (oauthConfig W h r) (http.FormValue r "code")], Ret tt) ;;;
     denied <- (if negb (String.eqb (RequireDomain h) "") then
                  ok <- domainAllowed W (conf_Client (oauthConfig W h r) tok) (RequireDomain h) ;;
                  ret (negb ok)
                else ret false) ;;
     if (denied : bool) then
       ([EvGetenv "KEY"; EvSessionSet sess_zero (with_MaxAge cfg (-1 * time_Second)%Z);
         EvHttpError "access forbidden" 401], Ret tt)
     else
       ([EvGetenv "KEY";
         EvSessionSet {| OAuthToken := Some tok; NextURL := ""; State := "" |} cfg;
         EvRedirect (NextURL user) 307], Ret tt)).
Proof using Hcfg Huser Htok Hpath.
  intros Hs Hx. unfold ServeHTTPContext.
  rewrite (loginOk_exchanged W h ctx r cfg Hcfg user tok Huser Htok Hpath Hs Hx).
  destruct (negb (String.eqb (RequireDomain h) "")); simpl; [|reflexivity].
  destruct (domainAllowed W (conf_Client (oauthConfig W h r) tok) (RequireDomain h))
    as [t [[|]| |]]; simpl; rewrite ?app_nil_r; reflexivity.
Qed.

(** The exchange succeeded and no domain is required, or the verifier
    said yes: the token is stored and the browser sent back. *)
Lemma ServeHTTPContext_callback_success (tok : oauth2.Token) :
  http.FormValue r "state" = State user ->
  Exchange W (oauthConfig W h r) (http.FormValue r "code") = Some tok ->
  RequireDomain h = EmptyString \/
    outcome (domainAllowed W (conf_Client (oauthConfig W h r) tok) (RequireDomain h)) = Ret true ->
  ServeHTTPContext W h ctx r =
    ([EvGetenv "KEY"; EvSessionGet cfg; EvExchange (oauthConfig W h r) (http.FormValue r "code")] ++
     (if String.eqb (RequireDomain h) "" then []
      else trace (domainAllowed W (conf_Client (oauthConfig W h r) tok) (RequireDomain h))) ++
     [EvGetenv "KEY";
      EvSessionSet {| OAuthToken := Some tok; NextURL := ""; State := "" |} cfg;
      EvRedirect (NextURL user) 307], Ret tt).
Proof using Hcfg Huser Htok Hpath.
  intros Hs Hx Hd. rewrite (ServeHTTPContext_exchanged tok Hs Hx).
  destruct (String.eqb (RequireDomain h) "") eqn:E; simpl; [reflexivity|].
  destruct Hd as [Hd|Hd]; [rewrite Hd in E; discriminate|].
  destruct (domainAllowed W (conf_Client (oauthConfig W h r) tok) (RequireDomain h)) as [t o].
  unfold outcome, trace in *. simpl in *. subst o. simpl. now rewrite ?app_nil_r.
Qed.

(** The verifier ran and did not say yes: 401 if it returned, and nothing
    at all if it panicked. *)
Lemma ServeHTTPContext_domain_denied (tok : oauth2.Token) :
  http.FormValue r "state" = State user ->
  Exchange W (oauthConfig W h r) (http.FormValue r "code") = Some tok ->
  RequireDomain h <> EmptyString ->
  outcome (domainAllowed W (conf_Client (oauthConfig W h r) tok) (RequireDomain h)) = Ret false ->
  ServeHTTPContext W h ctx r =
    ([EvGetenv "KEY"; EvSessionGet cfg; EvExchange (oauthConfig W h r) (http.FormValue r "code")] ++
     trace (domainAllowed W (conf_Client (oauthConfig W h r) tok) (RequireDomain h)) ++
     [EvGetenv "KEY"; EvSessionSet sess_zero (with_MaxAge cfg (-1 * time_Second)%Z);
      EvHttpError "access forbidden" 401], Ret tt).
Proof using Hcfg Huser Htok Hpath.
  intros Hs Hx Hn Hd. rewrite (ServeHTTPContext_exchanged tok Hs Hx).
  apply String.eqb_neq in Hn. rewrite Hn. simpl.
  destruct (domainAllowed W (conf_Client (oauthConfig W h r) tok) (RequireDomain h)) as [t o].
  unfold outcome, trace in *. simpl in *. subst o. simpl. now rewrite ?app_nil_r.
Qed.

Lemma ServeHTTPContext_domain_panic (tok : oauth2.Token) (msg : string) :
  http.FormValue r "state" = State user ->
  Exchange W (oauthConfig W h r) (http.FormValue r "code") = Some tok ->
  RequireDomain h <> EmptyString ->
  outcome (domainAllowed W (conf_Client (oauthConfig W h r) tok) (RequireDomain h)) = Panic msg ->
  ServeHTTPContext W h ctx r =
    ([EvGetenv "KEY"; EvSessionGet cfg; EvExchange (oauthConfig W h r) (http.FormValue r "code")] ++
     trace (domainAllowed W (conf_Client (oauthConfig W h r) tok) (RequireDomain h)), Panic msg).
Proof using Hcfg Huser Htok Hpath.
  intros Hs Hx Hn Hd. rewrite (ServeHTTPContext_exchanged tok Hs Hx).
  apply String.eqb_neq in Hn. rewrite Hn. simpl.
  destruct (domainAllowed W (conf_Client (oauthConfig W h r) tok) (RequireDomain h)) as [t o].
  unfold outcome, trace in *. simpl in *. subst o. simpl. now rewrite ?app_nil_r.
Qed.

End Callback.

Lemma authenticated_no_exchange (W : World) (h : OAuthHandler) (ctx : Context)
    (r : http.Request) (user : sess) (tok : oauth2.Token) :
  session_of W h r = Some user ->
  OAuthToken user = Some tok ->
  exchanges (trace (ServeHTTPContext W h ctx r)) = [] /\
  profile_fetches (trace (ServeHTTPContext W h ctx r)) = [].
Proof.
  intros Hu Ht. destruct (session_of_config W h r user Hu) as [cfg Hc].
  rewrite (ServeHTTPContext_authenticated W h ctx r cfg user tok Hc Hu Ht).
  unfold handler_event. destruct (handlerOf h); split; reflexivity.
Qed.

(** C8. A callback request whose [state] equals the state of the session,
    for which the gate exchanges the code and the exchange yields a token,
    and which passes the domain check when one is configured: the one
    cookie written holds the exchanged token and nothing else, under the
    configured max-age; the one response is a 307 redirect to the [NextURL]
    of the session; the protected handler is not called. *)
Theorem callback_success_stores_token_and_redirects (W : World) (h : OAuthHandler)
    (ctx : Context) (r : http.Request) (user : sess) (tok : oauth2.Token) :
  on_callback_path r = true ->
  session_of W h r = Some user ->
  http.FormValue r "state" = State user ->
  exchanges (trace (ServeHTTPContext W h ctx r)) <> [] ->
  Exchange W (oauthConfig W h r) (http.FormValue r "code") = Some tok ->
  RequireDomain h = EmptyString \/
    outcome (domainAllowed W (conf_Client (oauthConfig W h r) tok) (RequireDomain h)) = Ret true ->
  outcome (ServeHTTPContext W h ctx r) = Ret tt /\
  cookie_writes (trace (ServeHTTPContext W h ctx r)) =
    [({| OAuthToken := Some tok; NextURL := EmptyString; State := EmptyString |}, MaxAge h)] /\
  responses (trace (ServeHTTPContext W h ctx r)) = [EvRedirect (NextURL user) 307] /\
  handler_calls (trace (ServeHTTPContext W h ctx r)) = [].
Proof.
  intros Hp Hu Hs He Hx Hd.
  destruct (OAuthToken user) as [tok'|] eqn:Ht.
  { destruct (authenticated_no_exchange W h ctx r user tok' Hu Ht) as [E _].
    now rewrite E in He. }
  destruct (session_of_config W h r user Hu) as [cfg Hc].
  rewrite (ServeHTTPContext_callback_success W h ctx r cfg user Hc Hu Ht Hp tok Hs Hx Hd).
  rewrite <- (sessionConfig_MaxAge W h cfg Hc).
  pose proof (domainAllowed_quiet W (conf_Client (oauthConfig W h r) tok) (RequireDomain h))
    as (Qr & Qh & _ & Qc & _).
  unfold trace, outcome in *. cbn [fst snd].
  rewrite !cookie_writes_app, !responses_app, !handler_calls_app.
  destruct (String.eqb (RequireDomain h) ""); rewrite ?Qr, ?Qh, ?Qc; repeat split.
Qed.

Lemma callback_success_stores_token_and_redirects_witness :
  outcome (ServeHTTPContext pendingWorld restrictedGate [] callbackRequest) = Ret tt /\
  cookie_writes (trace (ServeHTTPContext pendingWorld restrictedGate [] callbackRequest)) =
    [({| OAuthToken := Some sampleToken; NextURL := EmptyString; State := EmptyString |},
      MaxAge restrictedGate)] /\
  responses (trace (ServeHTTPContext pendingWorld restrictedGate [] callbackRequest)) =
    [EvRedirect "https://app.example.com/dashboard" 307] /\
  handler_calls (trace (ServeHTTPContext pendingWorld restrictedGate [] callbackRequest)) = [].
Proof.
  apply (callback_success_stores_token_and_redirects
           pendingWorld restrictedGate [] callbackRequest pendingSession sampleToken).
  - reflexivity.
  - reflexivity.
  - reflexivity.
  - vm_compute. discriminate.
  - reflexivity.
  - right. reflexivity.
Defined.

(** ** The Domain Verifier is consulted on callbacks only *)

(** C10. A request whose session holds a token, or which is not for the
    callback path, never reaches [domainAllowed] (no profile request is
    made), whatever [RequireDomain] is; and a request whose session holds a
    token is handed to the protected handler, once, with no response of
    the gate. *)
Theorem domain_check_only_on_callback (W : World) (h : OAuthHandler) (ctx : Context)
    (r : http.Request) :
  has_token W h r = true \/ on_callback_path r = false ->
  profile_fetches (trace (ServeHTTPContext W h ctx r)) = [] /\
  (has_token W h r = true ->
   length (handler_calls (trace (ServeHTTPContext W h ctx r))) = 1 /\
   responses (trace (ServeHTTPContext W h ctx r)) = []).
Proof.
  intros H. split.
  - destruct H as [H|Hp].
    + destruct (has_token_inv W h r H) as (user & tok & Hu & Ht).
      apply (authenticated_no_exchange W h ctx r user tok Hu Ht).
    + destruct (gate_cases W h r) as [[msg Hx] | (cfg & Hc & [Hd | [user Hu]])].
      * now rewrite (ServeHTTPContext_key_failure W h ctx r msg Hx).
      * now rewrite (ServeHTTPContext_decode_error W h ctx r cfg Hc Hd).
      * destruct (OAuthToken user) as [tok|] eqn:Ht.
        -- apply (authenticated_no_exchange W h ctx r user tok Hu Ht).
        -- now rewrite (ServeHTTPContext_start_flow W h ctx r cfg user Hc Hu Ht Hp).
  - intros Ha. destruct (has_token_inv W h r Ha) as (user & tok & Hu & Ht).
    destruct (session_of_config W h r user Hu) as [cfg Hc].
    rewrite (ServeHTTPContext_authenticated W h ctx r cfg user tok Hc Hu Ht).
    unfold handler_event. destruct (handlerOf h); split; reflexivity.
Qed.

Lemma domain_check_only_on_callback_witness :
  RequireDomain restrictedGate = "heroku.com"%string /\
  profile_fetches (trace (ServeHTTPContext activeWorld restrictedGate [] callbackRequest)) = [] /\
  (has_token activeWorld restrictedGate callbackRequest = true ->
   length (handler_calls
             (trace (ServeHTTPContext activeWorld restrictedGate [] callbackRequest))) = 1 /\
   responses (trace (ServeHTTPContext activeWorld restrictedGate [] callbackRequest)) = []).
Proof.
  split; [reflexivity|].
  apply (domain_check_only_on_callback activeWorld restrictedGate [] callbackRequest).
  left. reflexivity.
Defined.

(** ** The gate: cookies that do not decode *)

(** C5, as the code has it.  A request whose cookie fails to decode (any
    error of [session.Get] other than [http.ErrNoCookie]): the gate deletes
    the cookie and answers 500 "internal error".  It returns normally,
    calls no handler, exchanges no code, fetches no profile and makes no
    redirect: the caller is not sent into the login flow by this
    response. *)
Theorem undecodable_cookie_gets_500 (W : World) (h : OAuthHandler) (ctx : Context)
    (r : http.Request) :
  decode_failed W h r = true ->
  outcome (ServeHTTPContext W h ctx r) = Ret tt /\
  outcome (loginOk W h ctx r) = Ret (ctx, false) /\
  cookie_writes (trace (ServeHTTPContext W h ctx r)) = [deletion] /\
  responses (trace (ServeHTTPContext W h ctx r)) = [EvHttpError "internal error" 500] /\
  handler_calls (trace (ServeHTTPContext W h ctx r)) = [] /\
  exchanges (trace (ServeHTTPContext W h ctx r)) = [] /\
  profile_fetches (trace (ServeHTTPContext W h ctx r)) = [] /\
  sent_to_login W h r (trace (ServeHTTPContext W h ctx r)) = false.
Proof.
  intros Hd. destruct (decode_failed_config W h r Hd) as [cfg Hc].
  rewrite (ServeHTTPContext_decode_error W h ctx r cfg Hc Hd).
  rewrite (loginOk_decode_error W h ctx r cfg Hc Hd).
  repeat split.
Qed.

Lemma undecodable_cookie_gets_500_witness :
  outcome (ServeHTTPContext tamperedWorld restrictedGate [] dashboardRequest) = Ret tt /\
  outcome (loginOk tamperedWorld restrictedGate [] dashboardRequest) = Ret ([], false) /\
  cookie_writes (trace (ServeHTTPContext tamperedWorld restrictedGate [] dashboardRequest)) =
    [deletion] /\
  responses (trace (ServeHTTPContext tamperedWorld restrictedGate [] dashboardRequest)) =
    [EvHttpError "internal error" 500] /\
  handler_calls (trace (ServeHTTPContext tamperedWorld restrictedGate [] dashboardRequest)) = [] /\
  exchanges (trace (ServeHTTPContext tamperedWorld restrictedGate [] dashboardRequest)) = [] /\
  profile_fetches (trace (ServeHTTPContext tamperedWorld restrictedGate [] dashboardRequest)) =
    [] /\
  sent_to_login tamperedWorld restrictedGate dashboardRequest
    (trace (ServeHTTPContext tamperedWorld restrictedGate [] dashboardRequest)) = false.
Proof.
  apply (undecodable_cookie_gets_500 tamperedWorld restrictedGate [] dashboardRequest).
  reflexivity.
Defined.

(** C5, as the specification words it, fails: the cookie of this request
    does not decode, and the caller is not redirected to the provider but
    answered 500. *)
Lemma undecodable_cookie_not_sent_to_login :
  decode_failed tamperedWorld restrictedGate dashboardRequest = true /\
  sent_to_login tamperedWorld restrictedGate dashboardRequest
    (trace (ServeHTTPContext tamperedWorld restrictedGate [] dashboardRequest)) = false /\
  responses (trace (ServeHTTPContext tamperedWorld restrictedGate [] dashboardRequest)) =
    [EvHttpError "internal error" 500].
Proof. vm_compute. repeat split. Qed.

(** ** The gate: starting a login *)

(** C7, as the code has it.  A request that is not for the callback path
    and whose session is readable (no cookie, or a cookie that decodes) and
    holds no token: the gate draws a state from [newState], writes one
    cookie holding exactly the https URL of the request (scheme https, host
    of the request, path of the request) and that state, answers with one
    307 redirect to the authorization URL made from the same state, and
    does not call the protected handler. *)
Theorem unauthenticated_request_starts_login (W : World) (h : OAuthHandler) (ctx : Context)
    (r : http.Request) (user : sess) :
  session_of W h r = Some user ->
  OAuthToken user = None ->
  on_callback_path r = false ->
  outcome (ServeHTTPContext W h ctx r) = Ret tt /\
  (exists state : string,
     outcome (newState W) = Ret state /\
     String.length state = 20 /\
     cookie_writes (trace (ServeHTTPContext W h ctx r)) =
       [({| OAuthToken := None; NextURL := URL_String W (httpsURL r); State := state |},
         MaxAge h)] /\
     responses (trace (ServeHTTPContext W h ctx r)) =
       [EvRedirect (AuthCodeURL W (oauthConfig W h r) state) 307]) /\
  url.Scheme (httpsURL r) = "https"%string /\
  url.Host (httpsURL r) = http.Host r /\
  url.Path (httpsURL r) = url.Path (http.URL r) /\
  handler_calls (trace (ServeHTTPContext W h ctx r)) = [] /\
  sent_to_login W h r (trace (ServeHTTPContext W h ctx r)) = true.
Proof.
  intros Hu Ht Hp. destruct (session_of_config W h r user Hu) as [cfg Hc].
  rewrite (ServeHTTPContext_start_flow W h ctx r cfg user Hc Hu Ht Hp).
  rewrite <- (sessionConfig_MaxAge W h cfg Hc).
  split; [reflexivity|]. split.
  - exists (hex.EncodeToString (firstn 10 (entropy W ++ repeat 0%Z 10))).
    split; [reflexivity|]. split; [|split; reflexivity].
    now apply (newState_length W).
  - repeat split. unfold sent_to_login, trace. cbn [fst responses List.filter is_response].
    cbn [cookie_writes existsb fst State Z.eqb Pos.eqb andb orb].
    now rewrite String.eqb_refl.
Qed.

Lemma unauthenticated_request_starts_login_witness :
  outcome (ServeHTTPContext anonymousWorld restrictedGate [] dashboardRequest) = Ret tt /\
  (exists state : string,
     outcome (newState anonymousWorld) = Ret state /\
     String.length state = 20 /\
     cookie_writes (trace (ServeHTTPContext anonymousWorld restrictedGate [] dashboardRequest)) =
       [({| OAuthToken := None;
            NextURL := URL_String anonymousWorld (httpsURL dashboardRequest);
            State := state |},
         MaxAge restrictedGate)] /\
     responses (trace (ServeHTTPContext anonymousWorld restrictedGate [] dashboardRequest)) =
       [EvRedirect (AuthCodeURL anonymousWorld
                      (oauthConfig anonymousWorld restrictedGate dashboardRequest) state) 307]) /\
  url.Scheme (httpsURL dashboardRequest) = "https"%string /\
  url.Host (httpsURL dashboardRequest) = http.Host dashboardRequest /\
  url.Path (httpsURL dashboardRequest) = url.Path (http.URL dashboardRequest) /\
  handler_calls (trace (ServeHTTPContext anonymousWorld restrictedGate [] dashboardRequest)) = [] /\
  sent_to_login anonymousWorld restrictedGate dashboardRequest
    (trace (ServeHTTPContext anonymousWorld restrictedGate [] dashboardRequest)) = true.
Proof.
  apply (unauthenticated_request_starts_login
           anonymousWorld restrictedGate [] dashboardRequest sess_zero).
  - reflexivity.
  - reflexivity.
  - reflexivity.
Defined.

(** Scenario A of the specification, evaluated. *)
Example scenario_A :
  cookie_writes (trace (ServeHTTP anonymousWorld restrictedGate dashboardRequest)) =
    [({| OAuthToken := None;
         NextURL := "https://app.example.com/dashboard";
         State := "010203040506070809ff" |}, MaxAge restrictedGate)] /\
  responses (trace (ServeHTTP anonymousWorld restrictedGate dashboardRequest)) =
    [EvRedirect "https://accounts.google.com/o/oauth2/auth?state=010203040506070809ff" 307].
Proof. vm_compute. split; reflexivity. Qed.

(** C7, as the specification words it, fails: this request is neither
    authenticated nor for the callback path, yet no login is started; the
    cookie is deleted and the answer is 500. *)
Lemma unauthenticated_request_without_login :
  has_token tamperedWorld openGate reportsRequest = false /\
  on_callback_path reportsRequest = false /\
  sent_to_login tamperedWorld openGate reportsRequest
    (trace (ServeHTTPContext tamperedWorld openGate [] reportsRequest)) = false /\
  cookie_writes (trace (ServeHTTPContext tamperedWorld openGate [] reportsRequest)) =
    [deletion] /\
  responses (trace (ServeHTTPContext tamperedWorld openGate [] reportsRequest)) =
    [EvHttpError "internal error" 500].
Proof. vm_compute. repeat split. Qed.

(** ** The gate: a callback without state *)

Lemma FormValue_absent (r : http.Request) (key : string) :
  http.Form r !! key = None -> http.FormValue r key = EmptyString.
Proof. unfold http.FormValue. now intros ->. Qed.

(** C1, evaluated on the code.  A callback request without [state]
    parameter, met with a session that holds neither token nor state (in
    particular with no cookie at all): the two empty strings are equal, so
    the gate does not report a mismatch; it exchanges the code of the
    request, and when the provider accepts it and no domain is required, it
    stores the token and redirects. *)
Theorem callback_without_state_reaches_exchange (W : World) (h : OAuthHandler)
    (ctx : Context) (r : http.Request) (user : sess) :
  on_callback_path r = true ->
  session_of W h r = Some user ->
  OAuthToken user = None ->
  State user = EmptyString ->
  http.Form r !! "state"%string = None ->
  exchanges (trace (ServeHTTPContext W h ctx r)) =
    [EvExchange (oauthConfig W h r) (http.FormValue r "code")] /\
  (forall tok : oauth2.Token,
     Exchange W (oauthConfig W h r) (http.FormValue r "code") = Some tok ->
     RequireDomain h = EmptyString ->
     cookie_writes (trace (ServeHTTPContext W h ctx r)) =
       [({| OAuthToken := Some tok; NextURL := EmptyString; State := EmptyString |}, MaxAge h)] /\
     responses (trace (ServeHTTPContext W h ctx r)) = [EvRedirect (NextURL user) 307]).
Proof.
  intros Hp Hu Ht Hst Hf.
  assert (Hs : http.FormValue r "state" = State user)
    by now rewrite Hst, (FormValue_absent r "state" Hf).
  destruct (session_of_config W h r user Hu) as [cfg Hc].
  split.
  - destruct (Exchange W (oauthConfig W h r) (http.FormValue r "code")) as [tok|] eqn:Hx.
    + rewrite (ServeHTTPContext_exchanged W h ctx r cfg user Hc Hu Ht Hp tok Hs Hx).
      pose proof (domainAllowed_quiet W (conf_Client (oauthConfig W h r) tok) (RequireDomain h))
        as (_ & _ & Qe & _).
      unfold trace, exchanges in *.
      destruct (negb (String.eqb (RequireDomain h) "")); [|reflexivity].
      destruct (domainAllowed W (conf_Client (oauthConfig W h r) tok) (RequireDomain h))
        as [t [[|]| |]]; simpl in *; rewrite ?List.filter_app, ?Qe; reflexivity.
    + now rewrite (ServeHTTPContext_exchange_error W h ctx r cfg user Hc Hu Ht Hp Hs Hx).
  - intros tok Hx Hd.
    rewrite (ServeHTTPContext_callback_success W h ctx r cfg user Hc Hu Ht Hp tok Hs Hx
               (or_introl Hd)).
    rewrite <- (sessionConfig_MaxAge W h cfg Hc). rewrite Hd. split; reflexivity.
Qed.

Lemma callback_without_state_reaches_exchange_witness :
  exchanges (trace (ServeHTTPContext anonymousWorld openGate [] forgedCallback)) =
    [EvExchange (oauthConfig anonymousWorld openGate forgedCallback)
       (http.FormValue forgedCallback "code")] /\
  (forall tok : oauth2.Token,
     Exchange anonymousWorld (oauthConfig anonymousWorld openGate forgedCallback)
       (http.FormValue forgedCallback "code") = Some tok ->
     RequireDomain openGate = EmptyString ->
     cookie_writes (trace (ServeHTTPContext anonymousWorld openGate [] forgedCallback)) =
       [({| OAuthToken := Some tok; NextURL := EmptyString; State := EmptyString |},
         MaxAge openGate)] /\
     responses (trace (ServeHTTPContext anonymousWorld openGate [] forgedCallback)) =
       [EvRedirect (NextURL sess_zero) 307]).
Proof.
  apply (callback_without_state_reaches_exchange
           anonymousWorld openGate [] forgedCallback sess_zero).
  - reflexivity.
  - reflexivity.
  - reflexivity.
  - reflexivity.
  - vm_compute. reflexivity.
Defined.

(** The same request, run: the attacker's code is exchanged, the token it
    yields becomes the session, and a 307 is sent; no 401. *)
Example forged_callback_logs_in :
  outcome (ServeHTTP anonymousWorld openGate forgedCallback) = Ret tt /\
  exchanges (trace (ServeHTTP anonymousWorld openGate forgedCallback)) =
    [EvExchange (oauthConfig anonymousWorld openGate forgedCallback) "4/attacker-code"] /\
  cookie_writes (trace (ServeHTTP anonymousWorld openGate forgedCallback)) =
    [({| OAuthToken := Some sampleToken; NextURL := ""; State := "" |}, MaxAge openGate)] /\
  responses (trace (ServeHTTP anonymousWorld openGate forgedCallback)) =
    [EvRedirect "" 307].
Proof. vm_compute. repeat split. Qed.

(** X20. What the state comparison does guarantee: a callback whose
    [state] differs from the one of the session is refused before any
    exchange: the cookie is deleted, the answer is 401 and the protected
    handler is not called. *)
Lemma callback_mismatch_is_refused (W : World) (h : OAuthHandler) (ctx : Context)
    (r : http.Request) (user : sess) :
  on_callback_path r = true ->
  session_of W h r = Some user ->
  OAuthToken user = None ->
  http.FormValue r "state" <> State user ->
  outcome (ServeHTTPContext W h ctx r) = Ret tt /\
  cookie_writes (trace (ServeHTTPContext W h ctx r)) = [deletion] /\
  responses (trace (ServeHTTPContext W h ctx r)) = [EvHttpError "access forbidden" 401] /\
  exchanges (trace (ServeHTTPContext W h ctx r)) = [] /\
  handler_calls (trace (ServeHTTPContext W h ctx r)) = [].
Proof.
  intros Hp Hu Ht Hs. destruct (session_of_config W h r user Hu) as [cfg Hc].
  rewrite (ServeHTTPContext_mismatch W h ctx r cfg user Hc Hu Ht Hp Hs).
  repeat split.
Qed.

(** Scenarios B and C of the specification, evaluated: the pending login
    comes back with its state, and a callback arrives with another one. *)
Example scenario_B :
  responses (trace (ServeHTTP pendingWorld openGate callbackRequest)) =
    [EvRedirect "https://app.example.com/dashboard" 307] /\
  cookie_writes (trace (ServeHTTP pendingWorld openGate callbackRequest)) =
    [({| OAuthToken := Some sampleToken; NextURL := ""; State := "" |}, MaxAge openGate)] /\
  handler_calls (trace (ServeHTTP pendingWorld openGate callbackRequest)) = [].
Proof. vm_compute. repeat split. Qed.

Example scenario_C :
  responses (trace (ServeHTTP pendingWorld openGate forgedCallback)) =
    [EvHttpError "access forbidden" 401] /\
  cookie_writes (trace (ServeHTTP pendingWorld openGate forgedCallback)) = [deletion] /\
  exchanges (trace (ServeHTTP pendingWorld openGate forgedCallback)) = [].
Proof. vm_compute. repeat split. Qed.

(** ** The Domain Verifier: network errors and emails *)

(** C3, evaluated on the code.  When the profile request fails with an
    error and no response, [domainAllowed] does not return false: the error
    branch reads [resp.StatusCode] through the nil response and panics. *)
Theorem domainAllowed_panics_on_network_error (W : World) (client : http.Client)
    (domain err : string) :
  client_Get W client profileURL = (None, Some err) ->
  outcome (domainAllowed W client domain) =
    Panic "invalid memory address or nil pointer dereference" /\
  outcome (domainAllowed W client domain) <> Ret false /\
  trace (domainAllowed W client domain) = [EvClientGet client profileURL].
Proof.
  intros H. rewrite (domainAllowed_nil_response W client domain err H).
  repeat split. discriminate.
Qed.

Lemma domainAllowed_panics_on_network_error_witness :
  outcome (domainAllowed unreachableWorld
             (conf_Client (oauthConfig unreachableWorld restrictedGate callbackRequest) sampleToken)
             "heroku.com") =
    Panic "invalid memory address or nil pointer dereference" /\
  outcome (domainAllowed unreachableWorld
             (conf_Client (oauthConfig unreachableWorld restrictedGate callbackRequest) sampleToken)
             "heroku.com") <> Ret false /\
  trace (domainAllowed unreachableWorld
           (conf_Client (oauthConfig unreachableWorld restrictedGate callbackRequest) sampleToken)
           "heroku.com") =
    [EvClientGet
       (conf_Client (oauthConfig unreachableWorld restrictedGate callbackRequest) sampleToken)
       profileURL].
Proof.
  apply (domainAllowed_panics_on_network_error unreachableWorld _ _ "dial tcp: i/o timeout").
  reflexivity.
Defined.

(** The code accepts every email the specification's test accepts. *)
Lemma one_at_with_domain_accepted (email domain : string) :
  one_at_with_domain email domain = true -> email_accepted email domain = true.
Proof.
  unfold one_at_with_domain, email_accepted.
  destruct (strings.Split email "@") as [|a [|d [|x tl]]]; try discriminate. auto.
Qed.

(** The specification's test asks for exactly one [@]. *)
Lemma one_at_with_domain_count (email domain : string) :
  one_at_with_domain email domain = true -> strings.Count email "@" = 1.
Proof.
  unfold one_at_with_domain. intros H.
  pose proof (Split_length email "@") as L.
  destruct (strings.Split email "@") as [|a [|d [|x tl]]]; try discriminate.
  simpl in L. lia.
Qed.

(** C4, evaluated on the code.  An email with two [@] whose middle piece
    is the required domain: the profile is fetched and decoded, and
    [domainAllowed] returns true, although the email has more than one [@]
    and does not pass the test of the specification. *)
Theorem domainAllowed_accepts_second_piece (W : World) (client : http.Client)
    (resp : http.Response) (gp : googleProfile) (name domain rest : string) :
  client_Get W client profileURL = (Some resp, None) ->
  http.StatusCode resp = 200%Z ->
  json_Decode W (http.Body resp) = Some gp ->
  Email gp = (name +:+ String "@" (domain +:+ String "@" rest))%string ->
  strings.Count name "@" = 0 ->
  strings.Count domain "@" = 0 ->
  outcome (domainAllowed W client domain) = Ret true /\
  strings.Count (Email gp) "@" >= 2 /\
  one_at_with_domain (Email gp) domain = false.
Proof.
  intros Hg Hs Hj He Hn Hd.
  rewrite (domainAllowed_profile W client domain resp gp Hg Hs Hj).
  pose proof (Split_length (Email gp) "@") as L.
  unfold email_accepted, one_at_with_domain.
  rewrite He in *. rewrite (Split_prefix name _ "@" Hn), (Split_prefix domain _ "@" Hd) in *.
  rewrite String.eqb_refl.
  pose proof (Split_length rest "@") as L'.
  destruct (strings.Split rest "@") as [|x tl]; [discriminate|].
  repeat split. simpl in L. lia.
Qed.

Lemma domainAllowed_accepts_second_piece_witness :
  outcome (domainAllowed twoAtWorld
             (conf_Client (oauthConfig twoAtWorld restrictedGate callbackRequest) sampleToken)
             "heroku.com") = Ret true /\
  strings.Count (Email (sampleProfile "eve@heroku.com@evil.example")) "@" >= 2 /\
  one_at_with_domain (Email (sampleProfile "eve@heroku.com@evil.example")) "heroku.com" = false.
Proof.
  apply (domainAllowed_accepts_second_piece twoAtWorld
           (conf_Client (oauthConfig twoAtWorld restrictedGate callbackRequest) sampleToken)
           {| http.StatusCode := 200; http.Body := "{}" |}
           (sampleProfile "eve@heroku.com@evil.example")
           "eve" "heroku.com" "evil.example").
  - reflexivity.
  - reflexivity.
  - reflexivity.
  - reflexivity.
  - reflexivity.
  - reflexivity.
Defined.

(** With that profile the whole login goes through. *)
Example two_at_email_logs_in :
  responses (trace (ServeHTTP twoAtWorld restrictedGate callbackRequest)) =
    [EvRedirect "https://app.example.com/dashboard" 307] /\
  cookie_writes (trace (ServeHTTP twoAtWorld restrictedGate callbackRequest)) =
    [({| OAuthToken := Some sampleToken; NextURL := ""; State := "" |}, MaxAge restrictedGate)].
Proof. vm_compute. split; reflexivity. Qed.

(** What the test on the email does guarantee. *)
Lemma email_accepted_inv (email domain : string) :
  email_accepted email domain = true ->
  strings.Count email "@" >= 1 /\
  nth_error (strings.Split email "@") 1 = Some domain.
Proof.
  unfold email_accepted. intros H.
  pose proof (Split_length email "@") as L.
  destruct (strings.Split email "@") as [|a [|d tl]]; try discriminate.
  apply String.eqb_eq in H. subst d. simpl in *. split; [lia|reflexivity].
Qed.

(** ** One decision per request *)

(** C9, evaluated on the code.  A callback request that passes the state
    check and the exchange, with a required domain, while the profile
    request fails on the network: the gate panics inside [domainAllowed].
    No response has been written and the protected handler is not called,
    so neither of the two outcomes of the claim takes place.  The defect is
    the one of C3. *)
Theorem no_decision_when_profile_fetch_fails (W : World) (h : OAuthHandler) (ctx : Context)
    (r : http.Request) (user : sess) (tok : oauth2.Token) (err : string) :
  on_callback_path r = true ->
  session_of W h r = Some user ->
  OAuthToken user = None ->
  http.FormValue r "state" = State user ->
  Exchange W (oauthConfig W h r) (http.FormValue r "code") = Some tok ->
  RequireDomain h <> EmptyString ->
  client_Get W (conf_Client (oauthConfig W h r) tok) profileURL = (None, Some err) ->
  outcome (ServeHTTPContext W h ctx r) =
    Panic "invalid memory address or nil pointer dereference" /\
  responses (trace (ServeHTTPContext W h ctx r)) = [] /\
  handler_calls (trace (ServeHTTPContext W h ctx r)) = [] /\
  cookie_writes (trace (ServeHTTPContext W h ctx r)) = [].
Proof.
  intros Hp Hu Ht Hs Hx Hn Hg.
  destruct (session_of_config W h r user Hu) as [cfg Hc].
  pose proof (domainAllowed_nil_response W _ (RequireDomain h) err Hg) as Hd.
  rewrite (ServeHTTPContext_domain_panic W h ctx r cfg user Hc Hu Ht Hp tok
             "invalid memory address or nil pointer dereference" Hs Hx Hn)
    by now rewrite Hd.
  rewrite Hd. repeat split.
Qed.

Lemma no_decision_when_profile_fetch_fails_witness :
  outcome (ServeHTTPContext unreachableWorld restrictedGate [] callbackRequest) =
    Panic "invalid memory address or nil pointer dereference" /\
  responses (trace (ServeHTTPContext unreachableWorld restrictedGate [] callbackRequest)) = [] /\
  handler_calls (trace (ServeHTTPContext unreachableWorld restrictedGate [] callbackRequest)) =
    [] /\
  cookie_writes (trace (ServeHTTPContext unreachableWorld restrictedGate [] callbackRequest)) = [].
Proof.
  apply (no_decision_when_profile_fetch_fails unreachableWorld restrictedGate []
           callbackRequest pendingSession sampleToken "dial tcp: i/o timeout").
  - reflexivity.
  - reflexivity.
  - reflexivity.
  - reflexivity.
  - reflexivity.
  - discriminate.
  - reflexivity.
Defined.

(** X21. Whenever the gate runs to its end it has made exactly one decision:
    the handler once and no response, or no handler and one response with
    status 307, 401 or 500.  It fails to do so only by terminating the
    process in [keys] or by panicking in [domainAllowed], and then it has
    written no response and called no handler. *)
Lemma gate_decisions (W : World) (h : OAuthHandler) (ctx : Context) (r : http.Request) :
  (outcome (ServeHTTPContext W h ctx r) = Ret tt /\
   length (handler_calls (trace (ServeHTTPContext W h ctx r))) = 1 /\
   responses (trace (ServeHTTPContext W h ctx r)) = []) \/
  (outcome (ServeHTTPContext W h ctx r) = Ret tt /\
   handler_calls (trace (ServeHTTPContext W h ctx r)) = [] /\
   exists e, responses (trace (ServeHTTPContext W h ctx r)) = [e] /\
             (status_of e = 307 \/ status_of e = 401 \/ status_of e = 500)%Z) \/
  ((outcome (ServeHTTPContext W h ctx r) = Exit 1%Z \/
    exists msg, outcome (ServeHTTPContext W h ctx r) = Panic msg) /\
   handler_calls (trace (ServeHTTPContext W h ctx r)) = [] /\
   responses (trace (ServeHTTPContext W h ctx r)) = []).
Proof.
  destruct (gate_cases W h r) as [[msg Hx] | (cfg & Hc & [Hd | [user Hu]])].
  - rewrite (ServeHTTPContext_key_failure W h ctx r msg Hx). right; right. auto.
  - rewrite (ServeHTTPContext_decode_error W h ctx r cfg Hc Hd).
    right; left. repeat split. eexists; split; [reflexivity|]. simpl; auto.
  - destruct (OAuthToken user) as [tok|] eqn:Ht.
    { rewrite (ServeHTTPContext_authenticated W h ctx r cfg user tok Hc Hu Ht).
      left. unfold handler_event. destruct (handlerOf h); repeat split. }
    destruct (on_callback_path r) eqn:Hp.
    2:{ rewrite (ServeHTTPContext_start_flow W h ctx r cfg user Hc Hu Ht Hp).
        right; left. repeat split. eexists; split; [reflexivity|]. simpl; auto. }
    destruct (String.eqb (http.FormValue r "state") (State user)) eqn:Hs.
    2:{ apply String.eqb_neq in Hs.
        rewrite (ServeHTTPContext_mismatch W h ctx r cfg user Hc Hu Ht Hp Hs).
        right; left. repeat split. eexists; split; [reflexivity|]. simpl; auto. }
    apply String.eqb_eq in Hs.
    destruct (Exchange W (oauthConfig W h r) (http.FormValue r "code")) as [tok|] eqn:Hx.
    2:{ rewrite (ServeHTTPContext_exchange_error W h ctx r cfg user Hc Hu Ht Hp Hs Hx).
        right; left. repeat split. eexists; split; [reflexivity|]. simpl; auto. }
    rewrite (ServeHTTPContext_exchanged W h ctx r cfg user Hc Hu Ht Hp tok Hs Hx).
    pose proof (domainAllowed_quiet W (conf_Client (oauthConfig W h r) tok) (RequireDomain h))
      as (Qr & Qh & _).
    pose proof (domainAllowed_no_exit W (conf_Client (oauthConfig W h r) tok) (RequireDomain h))
      as Qx.
    unfold trace, outcome, responses, handler_calls in *.
    destruct (negb (String.eqb (RequireDomain h) "")).
    2:{ right; left. repeat split. eexists; split; [reflexivity|]. simpl; auto. }
    destruct (domainAllowed W (conf_Client (oauthConfig W h r) tok) (RequireDomain h))
      as [t [[|]| |]]; simpl in *; rewrite ?List.filter_app, ?Qr, ?Qh; simpl.
    + right; left. repeat split. eexists; split; [reflexivity|]. simpl; auto.
    + right; left. repeat split. eexists; split; [reflexivity|]. simpl; auto.
    + right; right. repeat split. right. eauto.
    + now destruct (Qx code).
Qed.

(** ** Where the key comes from *)

(** C2, evaluated on the code.  The [Key] field of the handler holds a
    well-formed key of 32 bytes and the environment has no KEY: the key is
    looked up in the environment while the request is handled, the field is
    not consulted, and the process is terminated with status 1 in the
    middle of the request. *)
Theorem key_is_read_from_environment_per_request (W : World) (h : OAuthHandler)
    (ctx : Context) (r : http.Request) (key : list Z) :
  hex.DecodeString (Key h) = Some key ->
  length key = 32 ->
  environ W !! "KEY"%string = None ->
  ServeHTTPContext W h ctx r =
    ([EvGetenv "KEY"; EvLogError "keys" "Invalid Key Length"], Exit 1%Z).
Proof.
  intros _ _ He. apply ServeHTTPContext_Exit.
  unfold loginOk, sessionConfig, keys, os_Getenv. rewrite He. reflexivity.
Qed.

Lemma key_is_read_from_environment_per_request_witness :
  ServeHTTPContext keylessWorld openGate [] dashboardRequest =
    ([EvGetenv "KEY"; EvLogError "keys" "Invalid Key Length"], Exit 1%Z).
Proof.
  apply (key_is_read_from_environment_per_request keylessWorld openGate [] dashboardRequest
           sampleKey).
  - reflexivity.
  - reflexivity.
  - reflexivity.
Defined.

(** Every request reads the environment first, whatever the handler and
    the request are. *)
Lemma every_request_reads_environment (W : World) (h : OAuthHandler) (ctx : Context)
    (r : http.Request) :
  exists rest, trace (ServeHTTPContext W h ctx r) = EvGetenv "KEY" :: rest.
Proof.
  unfold ServeHTTPContext.
  match goal with
  | |- context [trace (bind (loginOk W h ctx r) ?f)] =>
      destruct (trace_bind_prefix (loginOk W h ctx r) f) as [rest1 ->]
  end.
  unfold loginOk.
  match goal with
  | |- context [trace (bind (sessionConfig W h) ?f)] =>
      destruct (trace_bind_prefix (sessionConfig W h) f) as [rest2 ->]
  end.
  destruct (sessionConfig_exits_or_returns W h) as [[cfg Hc] | [msg Hx]].
  - rewrite Hc. simpl. eauto.
  - rewrite Hx. simpl. eauto.
Qed.

(** With a good KEY in the environment the [Key] field makes no
    difference at all. *)
Lemma Key_field_is_ignored (W : World) (h : OAuthHandler) (k : string) :
  sessionConfig W h =
  sessionConfig W {| RequireDomain := RequireDomain h; Name := Name h; Path := Path h;
                     Domain := Domain h; MaxAge := MaxAge h; Key := k;
                     ClientID := ClientID h; ClientSecret := ClientSecret h;
                     Scopes := Scopes h; Handler_ := Handler_ h |}.
Proof. reflexivity. Qed.

(** * Further properties of the package *)

(** ** Every run takes one of the ways through the gate *)

Lemma gate_run (W : World) (h : OAuthHandler) (ctx : Context) (r : http.Request) :
  GateRun W h ctx r (ServeHTTPContext W h ctx r).
Proof.
  destruct (gate_cases W h r) as [[msg Hx] | (cfg & Hc & [Hd | [user Hu]])].
  - rewrite (ServeHTTPContext_key_failure W h ctx r msg Hx). now constructor.
  - rewrite (ServeHTTPContext_decode_error W h ctx r cfg Hc Hd). now constructor.
  - destruct (OAuthToken user) as [tok|] eqn:Ht.
    { rewrite (ServeHTTPContext_authenticated W h ctx r cfg user tok Hc Hu Ht).
      now apply RunAuthenticated. }
    destruct (on_callback_path r) eqn:Hp.
    2:{ rewrite (ServeHTTPContext_start_flow W h ctx r cfg user Hc Hu Ht Hp).
        now apply RunStartFlow with (user := user). }
    destruct (String.eqb (http.FormValue r "state") (State user)) eqn:Hs.
    2:{ apply String.eqb_neq in Hs.
        rewrite (ServeHTTPContext_mismatch W h ctx r cfg user Hc Hu Ht Hp Hs).
        now apply RunMismatch with (user := user). }
    apply String.eqb_eq in Hs.
    destruct (Exchange W (oauthConfig W h r) (http.FormValue r "code")) as [tok|] eqn:Hx.
    2:{ rewrite (ServeHTTPContext_exchange_error W h ctx r cfg user Hc Hu Ht Hp Hs Hx).
        now apply RunExchangeError with (user := user). }
    destruct (String.eqb (RequireDomain h) "") eqn:Hn.
    { apply String.eqb_eq in Hn.
      rewrite (ServeHTTPContext_callback_success W h ctx r cfg user Hc Hu Ht Hp tok Hs Hx
                 (or_introl Hn)).
      apply RunLoggedIn with (user := user); auto. }
    apply String.eqb_neq in Hn.
    destruct (outcome (domainAllowed W (conf_Client (oauthConfig W h r) tok) (RequireDomain h)))
      as [[|]|msg|code] eqn:Hd.
    + rewrite (ServeHTTPContext_callback_success W h ctx r cfg user Hc Hu Ht Hp tok Hs Hx
                 (or_intror Hd)).
      apply RunLoggedIn with (user := user); auto.
    + rewrite (ServeHTTPContext_domain_denied W h ctx r cfg user Hc Hu Ht Hp tok Hs Hx Hn Hd).
      now apply RunDomainDenied with (user := user).
    + rewrite (ServeHTTPContext_domain_panic W h ctx r cfg user Hc Hu Ht Hp tok msg Hs Hx Hn Hd).
      now apply RunDomainPanic with (user := user).
    + now destruct (domainAllowed_no_exit W _ _ code Hd).
Qed.

Lemma env_reads_app (t u : list Event) : env_reads (t ++ u) = env_reads t ++ env_reads u.
Proof. apply List.filter_app. Qed.

Lemma env_reads_handler_event (h : OAuthHandler) (ctx : Context) :
  env_reads [handler_event h ctx] = [].
Proof. unfold handler_event. destruct (handlerOf h); reflexivity. Qed.

(** [domainAllowed] does not read the environment. *)
Lemma domainAllowed_no_getenv (W : World) (client : http.Client) (domain : string) :
  env_reads (trace (domainAllowed W client domain)) = [].
Proof.
  unfold domainAllowed.
  destruct (client_Get W client profileURL) as [[resp|] [err|]]; simpl; try reflexivity.
  destruct (negb (http.StatusCode resp =? 200)%Z); simpl; try reflexivity.
  destruct (json_Decode W (http.Body resp)) as [gp|]; simpl; try reflexivity.
  destruct (strings.Split (Email gp) "@") as [|a [|d tl]]; simpl; try reflexivity.
  destruct (String.eqb d domain); reflexivity.
Qed.

(** An event that is a response shows among the responses. *)
Lemma In_responses (e : Event) (t : list Event) :
  In e t -> is_response e = true -> In e (responses t).
Proof. intros Hi Hr. apply List.filter_In. now split. Qed.

Lemma In_handler_calls (e : Event) (t : list Event) :
  In e t -> is_handler_call e = true -> In e (handler_calls t).
Proof. intros Hi Hr. apply List.filter_In. now split. Qed.

Lemma domainAllowed_responses (W : World) (client : http.Client) (domain : string) :
  responses (trace (domainAllowed W client domain)) = [].
Proof. apply (domainAllowed_quiet W client domain). Qed.

Lemma domainAllowed_handler_calls (W : World) (client : http.Client) (domain : string) :
  handler_calls (trace (domainAllowed W client domain)) = [].
Proof. apply (domainAllowed_quiet W client domain). Qed.

Lemma domainAllowed_exchanges (W : World) (client : http.Client) (domain : string) :
  exchanges (trace (domainAllowed W client domain)) = [].
Proof. apply (domainAllowed_quiet W client domain). Qed.

Lemma domainAllowed_cookie_writes (W : World) (client : http.Client) (domain : string) :
  cookie_writes (trace (domainAllowed W client domain)) = [].
Proof. apply (domainAllowed_quiet W client domain). Qed.

Lemma domainAllowed_profile_fetches (W : World) (client : http.Client) (domain : string) :
  profile_fetches (trace (domainAllowed W client domain)) = [EvClientGet client profileURL].
Proof. apply (domainAllowed_quiet W client domain). Qed.

Lemma session_sets_app (t u : list Event) :
  session_sets (t ++ u) = session_sets t ++ session_sets u.
Proof.
  induction t as [|e t IH]; simpl; [reflexivity|].
  destruct e; simpl; now rewrite IH.
Qed.

Lemma domainAllowed_session_sets (W : World) (client : http.Client) (domain : string) :
  session_sets (trace (domainAllowed W client domain)) = [].
Proof.
  unfold domainAllowed.
  destruct (client_Get W client profileURL) as [[resp|] [err|]]; simpl; try reflexivity.
  destruct (negb (http.StatusCode resp =? 200)%Z); simpl; try reflexivity.
  destruct (json_Decode W (http.Body resp)) as [gp|]; simpl; try reflexivity.
  destruct (strings.Split (Email gp) "@") as [|a [|d tl]]; simpl; try reflexivity.
  destruct (String.eqb d domain); reflexivity.
Qed.

Lemma trace_pair {A} (t : list Event) (o : Outcome A) : trace (t, o) = t.
Proof. reflexivity. Qed.

Lemma outcome_pair {A} (t : list Event) (o : Outcome A) : outcome (t, o) = o.
Proof. reflexivity. Qed.

(** The projections of the trace of a run, computed. *)
Ltac project_trace :=
  rewrite ?trace_pair, ?outcome_pair in *;
  repeat match goal with
         | |- context [handler_event ?h ?c] => unfold handler_event; destruct (handlerOf h)
         | |- context [if String.eqb ?a ?b then _ else _] => destruct (String.eqb a b)
         end;
  rewrite ?responses_app, ?handler_calls_app, ?exchanges_app, ?cookie_writes_app,
    ?env_reads_app, ?profile_fetches_app, ?session_sets_app;
  rewrite ?domainAllowed_responses, ?domainAllowed_handler_calls, ?domainAllowed_exchanges,
    ?domainAllowed_cookie_writes, ?domainAllowed_no_getenv, ?domainAllowed_profile_fetches,
    ?domainAllowed_session_sets;
  cbn [responses handler_calls exchanges cookie_writes env_reads profile_fetches
       session_sets
       List.filter is_response is_handler_call is_exchange is_getenv is_profile_fetch
       app length].

(** X1. A request the gate handles to its end sets exactly one cookie:
    the refreshed session, the pending login, the new token, or the
    deletion. *)
Theorem one_cookie_per_request (W : World) (h : OAuthHandler) (ctx : Context)
    (r : http.Request) :
  outcome (ServeHTTPContext W h ctx r) = Ret tt ->
  length (cookie_writes (trace (ServeHTTPContext W h ctx r))) = 1.
Proof.
  destruct (gate_run W h ctx r); intros Ho; try discriminate; project_trace; reflexivity.
Qed.

Lemma one_cookie_per_request_witness :
  length (cookie_writes (trace (ServeHTTPContext tamperedWorld openGate [] callbackRequest))) = 1.
Proof.
  apply (one_cookie_per_request tamperedWorld openGate [] callbackRequest).
  reflexivity.
Defined.

(** X2. A request the gate handles to its end reads the environment
    exactly twice, both times the variable KEY: the key is looked up and
    decoded once for reading the cookie and once for writing it. *)
Theorem key_is_decoded_twice_per_request (W : World) (h : OAuthHandler) (ctx : Context)
    (r : http.Request) :
  outcome (ServeHTTPContext W h ctx r) = Ret tt ->
  env_reads (trace (ServeHTTPContext W h ctx r)) = [EvGetenv "KEY"; EvGetenv "KEY"].
Proof.
  destruct (gate_run W h ctx r); intros Ho; try discriminate; project_trace; reflexivity.
Qed.

Lemma key_is_decoded_twice_per_request_witness :
  env_reads (trace (ServeHTTPContext pendingWorld restrictedGate [] callbackRequest)) =
    [EvGetenv "KEY"; EvGetenv "KEY"].
Proof.
  apply (key_is_decoded_twice_per_request pendingWorld restrictedGate [] callbackRequest).
  reflexivity.
Defined.

(** X3. The protected handler is called exactly when the session of the
    request holds a token: a callback that completes a login does not reach
    the handler, and no other way through the gate does. *)
Theorem handler_called_iff_token (W : World) (h : OAuthHandler) (ctx : Context)
    (r : http.Request) :
  handler_calls (trace (ServeHTTPContext W h ctx r)) <> [] <-> has_token W h r = true.
Proof.
  split.
  - destruct (gate_run W h ctx r) as [| | cfg user tok Hc Hu Ht | | | | | |];
      project_trace; intros Hn; try (now destruct Hn);
      unfold has_token; now rewrite Hu, Ht.
  - intros Ha. destruct (has_token_inv W h r Ha) as (user & tok & Hu & Ht).
    destruct (session_of_config W h r user Hu) as [cfg Hc].
    rewrite (ServeHTTPContext_authenticated W h ctx r cfg user tok Hc Hu Ht).
    project_trace; discriminate.
Qed.

(** X4. A code is exchanged only for a callback request whose session
    holds no token and whose [state] equals the state of the session; and
    then once, with the code of the request and the configuration whose
    redirect URL is the callback path on the host of the request. *)
Theorem exchange_needs_matching_state (W : World) (h : OAuthHandler) (ctx : Context)
    (r : http.Request) :
  exchanges (trace (ServeHTTPContext W h ctx r)) <> [] ->
  on_callback_path r = true /\
  (exists user : sess,
     session_of W h r = Some user /\
     OAuthToken user = None /\
     http.FormValue r "state" = State user) /\
  exchanges (trace (ServeHTTPContext W h ctx r)) =
    [EvExchange (oauthConfig W h r) (http.FormValue r "code")] /\
  oauth2.RedirectURL (oauthConfig W h r) =
    ("https://" +:+ http.Host r +:+ "/oauth2callback")%string.
Proof.
  destruct (gate_run W h ctx r); project_trace; intros Hn; try (now destruct Hn);
    repeat split; eauto.
Qed.

Lemma exchange_needs_matching_state_witness :
  on_callback_path callbackRequest = true /\
  (exists user : sess,
     session_of refusingWorld openGate callbackRequest = Some user /\
     OAuthToken user = None /\
     http.FormValue callbackRequest "state" = State user) /\
  exchanges (trace (ServeHTTPContext refusingWorld openGate [] callbackRequest)) =
    [EvExchange (oauthConfig refusingWorld openGate callbackRequest)
       (http.FormValue callbackRequest "code")] /\
  oauth2.RedirectURL (oauthConfig refusingWorld openGate callbackRequest) =
    ("https://" +:+ http.Host callbackRequest +:+ "/oauth2callback")%string.
Proof.
  apply (exchange_needs_matching_state refusingWorld openGate [] callbackRequest).
  vm_compute. discriminate.
Defined.

(** X5. A cookie that holds a token is written under the configured
    max-age, and its token is either the one the session of the request
    already held (the record is written back unchanged) or the one the
    provider returned for the code of a callback whose state matched; the
    gate stores no other token. *)
Theorem stored_token_comes_from_session_or_exchange (W : World) (h : OAuthHandler)
    (ctx : Context) (r : http.Request) (v : sess) (age : Z) (tok : oauth2.Token) :
  In (v, age) (cookie_writes (trace (ServeHTTPContext W h ctx r))) ->
  OAuthToken v = Some tok ->
  age = MaxAge h /\
  (session_of W h r = Some v \/
   (v = {| OAuthToken := Some tok; NextURL := EmptyString; State := EmptyString |} /\
    on_callback_path r = true /\
    Exchange W (oauthConfig W h r) (http.FormValue r "code") = Some tok /\
    exists user : sess,
      session_of W h r = Some user /\ OAuthToken user = None /\
      http.FormValue r "state" = State user)).
Proof.
  destruct (gate_run W h ctx r)
    as [| cfg Hc Hd | cfg user tok' Hc Hu Ht | cfg user Hc Hu Ht Hp
        | cfg user Hc Hu Ht Hp Hs | cfg user Hc Hu Ht Hp Hs Hx
        | cfg user tok' Hc Hu Ht Hp Hs Hx Hd | cfg user tok' Hc Hu Ht Hp Hs Hx Hn Hd
        | cfg user tok' msg Hc Hu Ht Hp Hs Hx Hn Hd];
    project_trace; cbn [In]; intros Hi Hv;
    repeat match goal with
           | H : _ \/ _ |- _ => destruct H
           | H : False |- _ => destruct H
           | H : (_, _) = (_, _) |- _ => injection H as <- <-
           end;
    try discriminate;
    rewrite ?(sessionConfig_MaxAge W h cfg Hc);
    (split; [reflexivity|]);
    first [ now left
          | right; cbn in Hv; injection Hv as <-; repeat split; eauto ].
Qed.

Lemma stored_token_comes_from_session_or_exchange_witness :
  MaxAge openGate = MaxAge openGate /\
  (session_of pendingWorld openGate callbackRequest =
     Some {| OAuthToken := Some sampleToken; NextURL := EmptyString; State := EmptyString |} \/
   ({| OAuthToken := Some sampleToken; NextURL := EmptyString; State := EmptyString |} =
    {| OAuthToken := Some sampleToken; NextURL := EmptyString; State := EmptyString |} /\
    on_callback_path callbackRequest = true /\
    Exchange pendingWorld (oauthConfig pendingWorld openGate callbackRequest)
      (http.FormValue callbackRequest "code") = Some sampleToken /\
    exists user : sess,
      session_of pendingWorld openGate callbackRequest = Some user /\
      OAuthToken user = None /\
      http.FormValue callbackRequest "state" = State user)).
Proof.
  apply (stored_token_comes_from_session_or_exchange pendingWorld openGate []
           callbackRequest _ _ sampleToken).
  - vm_compute. left. reflexivity.
  - reflexivity.
Defined.

(** X6. Every error response of the gate is a 401 "access forbidden" or a
    500 "internal error", and a run that writes one deletes the cookie,
    writes no other cookie and does not call the protected handler. *)
Theorem error_response_deletes_cookie (W : World) (h : OAuthHandler) (ctx : Context)
    (r : http.Request) (body : string) (code : Z) :
  In (EvHttpError body code) (responses (trace (ServeHTTPContext W h ctx r))) ->
  cookie_writes (trace (ServeHTTPContext W h ctx r)) = [deletion] /\
  handler_calls (trace (ServeHTTPContext W h ctx r)) = [] /\
  ((body = "access forbidden"%string /\ code = 401%Z) \/
   (body = "internal error"%string /\ code = 500%Z)).
Proof.
  destruct (gate_run W h ctx r); project_trace; cbn [In]; intros Hi;
    repeat match goal with
           | H : _ \/ _ |- _ => destruct H
           | H : False |- _ => destruct H
           end;
    try discriminate;
    match goal with H : EvHttpError _ _ = EvHttpError _ _ |- _ => injection H as <- <- end;
    repeat split; auto.
Qed.

Lemma error_response_deletes_cookie_witness :
  cookie_writes (trace (ServeHTTPContext outsiderWorld restrictedGate [] callbackRequest)) =
    [deletion] /\
  handler_calls (trace (ServeHTTPContext outsiderWorld restrictedGate [] callbackRequest)) = [] /\
  (("access forbidden"%string = "access forbidden"%string /\ 401%Z = 401%Z) \/
   ("access forbidden"%string = "internal error"%string /\ 401%Z = 500%Z)).
Proof.
  apply (error_response_deletes_cookie outsiderWorld restrictedGate [] callbackRequest).
  vm_compute. left. reflexivity.
Defined.

(** The configuration [sessionConfig] returns, field by field. *)
Lemma sessionConfig_fields (W : World) (h : OAuthHandler) (cfg : session.Config) :
  outcome (sessionConfig W h) = Ret cfg ->
  session.Name cfg = cookieName h /\
  session.Path cfg = Path h /\
  session.Domain cfg = Domain h /\
  session.MaxAge cfg = MaxAge h /\
  exists key, hex.DecodeString (os_Getenv W "KEY") = Some key /\
              length key = 32 /\ session.Keys cfg = [key].
Proof.
  unfold sessionConfig, keys, cookieName. simpl.
  destruct (hex.DecodeString (os_Getenv W "KEY")) as [key|]; simpl; [|discriminate].
  destruct (length key =? 32)%nat eqn:L; simpl; [|discriminate].
  apply Nat.eqb_eq in L.
  assert (C : copy32 key = key).
  { unfold copy32. rewrite firstn_app, L, firstn_all2 by lia.
    cbn [Nat.sub firstn]. apply app_nil_r. }
  rewrite C.
  destruct (String.eqb (Name h) ""); simpl; intros [= <-]; simpl; repeat split; eauto.
Qed.

(** X7. Every cookie the gate writes goes under the configured cookie
    name, which is "googlegoauth" when [Name] is empty, the configured path
    and domain, and one key of 32 bytes, the decoded KEY.  Its max-age is
    the configured one, except for the empty record that deletes the
    session, whose max-age is minus one second. *)
Theorem cookies_use_configured_scope (W : World) (h : OAuthHandler) (ctx : Context)
    (r : http.Request) (v : sess) (c : session.Config) :
  In (v, c) (session_sets (trace (ServeHTTPContext W h ctx r))) ->
  session.Name c = cookieName h /\
  session.Name c <> EmptyString /\
  session.Path c = Path h /\
  session.Domain c = Domain h /\
  (exists key, hex.DecodeString (os_Getenv W "KEY") = Some key /\
               length key = 32 /\ session.Keys c = [key]) /\
  (session.MaxAge c = MaxAge h \/
   (v = sess_zero /\ session.MaxAge c = (-1 * time_Second)%Z)).
Proof.
  assert (Hne : cookieName h <> EmptyString).
  { unfold cookieName.
    destruct (String.eqb (Name h) "") eqn:E; [discriminate|]. now apply String.eqb_neq. }
  destruct (gate_run W h ctx r)
    as [| cfg Hc Hd | cfg user tok' Hc Hu Ht | cfg user Hc Hu Ht Hp
        | cfg user Hc Hu Ht Hp Hs | cfg user Hc Hu Ht Hp Hs Hx
        | cfg user tok' Hc Hu Ht Hp Hs Hx Hd | cfg user tok' Hc Hu Ht Hp Hs Hx Hn Hd
        | cfg user tok' msg Hc Hu Ht Hp Hs Hx Hn Hd];
    project_trace; cbn [In]; intros Hi;
    repeat match goal with
           | H : _ \/ _ |- _ => destruct H
           | H : False |- _ => destruct H
           | H : (_, _) = (_, _) |- _ => injection H as <- <-
           end;
    destruct (sessionConfig_fields W h cfg Hc) as (Fn & Fp & Fd & Fa & Fk);
    cbn [with_MaxAge session.Name session.Path session.Domain session.MaxAge session.Keys];
    rewrite Fn, Fp, Fd; repeat split; auto.
Qed.

Lemma cookies_use_configured_scope_witness :
  session.Name restrictedDeletion = cookieName restrictedGate /\
  session.Name restrictedDeletion <> EmptyString /\
  session.Path restrictedDeletion = Path restrictedGate /\
  session.Domain restrictedDeletion = Domain restrictedGate /\
  (exists key, hex.DecodeString (os_Getenv tamperedWorld "KEY") = Some key /\
               length key = 32 /\ session.Keys restrictedDeletion = [key]) /\
  (session.MaxAge restrictedDeletion = MaxAge restrictedGate \/
   (sess_zero = sess_zero /\ session.MaxAge restrictedDeletion = (-1 * time_Second)%Z)).
Proof.
  apply (cookies_use_configured_scope tamperedWorld restrictedGate [] dashboardRequest
           sess_zero restrictedDeletion).
  vm_compute. left. reflexivity.
Defined.

(** ** Refusals on the callback path *)

(** X8. A callback whose state matches but whose code the provider does
    not accept: the code is exchanged once, the cookie is deleted, the
    answer is 401 "access forbidden", no profile is fetched and the
    protected handler is not called. *)
Theorem exchange_error_is_refused (W : World) (h : OAuthHandler) (ctx : Context)
    (r : http.Request) (user : sess) :
  on_callback_path r = true ->
  session_of W h r = Some user ->
  OAuthToken user = None ->
  http.FormValue r "state" = State user ->
  Exchange W (oauthConfig W h r) (http.FormValue r "code") = None ->
  outcome (ServeHTTPContext W h ctx r) = Ret tt /\
  exchanges (trace (ServeHTTPContext W h ctx r)) =
    [EvExchange (oauthConfig W h r) (http.FormValue r "code")] /\
  cookie_writes (trace (ServeHTTPContext W h ctx r)) = [deletion] /\
  responses (trace (ServeHTTPContext W h ctx r)) = [EvHttpError "access forbidden" 401] /\
  profile_fetches (trace (ServeHTTPContext W h ctx r)) = [] /\
  handler_calls (trace (ServeHTTPContext W h ctx r)) = [].
Proof.
  intros Hp Hu Ht Hs Hx. destruct (session_of_config W h r user Hu) as [cfg Hc].
  rewrite (ServeHTTPContext_exchange_error W h ctx r cfg user Hc Hu Ht Hp Hs Hx).
  repeat split.
Qed.

Lemma exchange_error_is_refused_witness :
  outcome (ServeHTTPContext refusingWorld restrictedGate [] callbackRequest) = Ret tt /\
  exchanges (trace (ServeHTTPContext refusingWorld restrictedGate [] callbackRequest)) =
    [EvExchange (oauthConfig refusingWorld restrictedGate callbackRequest)
       (http.FormValue callbackRequest "code")] /\
  cookie_writes (trace (ServeHTTPContext refusingWorld restrictedGate [] callbackRequest)) =
    [deletion] /\
  responses (trace (ServeHTTPContext refusingWorld restrictedGate [] callbackRequest)) =
    [EvHttpError "access forbidden" 401] /\
  profile_fetches (trace (ServeHTTPContext refusingWorld restrictedGate [] callbackRequest)) =
    [] /\
  handler_calls (trace (ServeHTTPContext refusingWorld restrictedGate [] callbackRequest)) = [].
Proof.
  apply (exchange_error_is_refused refusingWorld restrictedGate [] callbackRequest
           pendingSession).
  - reflexivity.
  - reflexivity.
  - reflexivity.
  - reflexivity.
  - reflexivity.
Defined.

(** X9. With a required domain, a callback that passes the state check
    and the exchange but whose profile [domainAllowed] turns down: the
    token of the exchange is not stored; the cookie is deleted, the answer
    is 401 "access forbidden" and the protected handler is not called.  The
    profile is fetched once, with the client made from the new token. *)
Theorem domain_denial_is_refused (W : World) (h : OAuthHandler) (ctx : Context)
    (r : http.Request) (user : sess) (tok : oauth2.Token) :
  on_callback_path r = true ->
  session_of W h r = Some user ->
  OAuthToken user = None ->
  http.FormValue r "state" = State user ->
  Exchange W (oauthConfig W h r) (http.FormValue r "code") = Some tok ->
  RequireDomain h <> EmptyString ->
  outcome (domainAllowed W (conf_Client (oauthConfig W h r) tok) (RequireDomain h)) =
    Ret false ->
  outcome (ServeHTTPContext W h ctx r) = Ret tt /\
  cookie_writes (trace (ServeHTTPContext W h ctx r)) = [deletion] /\
  responses (trace (ServeHTTPContext W h ctx r)) = [EvHttpError "access forbidden" 401] /\
  profile_fetches (trace (ServeHTTPContext W h ctx r)) =
    [EvClientGet (conf_Client (oauthConfig W h r) tok) profileURL] /\
  handler_calls (trace (ServeHTTPContext W h ctx r)) = [].
Proof.
  intros Hp Hu Ht Hs Hx Hn Hd. destruct (session_of_config W h r user Hu) as [cfg Hc].
  rewrite (ServeHTTPContext_domain_denied W h ctx r cfg user Hc Hu Ht Hp tok Hs Hx Hn Hd).
  project_trace. repeat split.
Qed.

Lemma domain_denial_is_refused_witness :
  outcome (ServeHTTPContext outsiderWorld restrictedGate [] callbackRequest) = Ret tt /\
  cookie_writes (trace (ServeHTTPContext outsiderWorld restrictedGate [] callbackRequest)) =
    [deletion] /\
  responses (trace (ServeHTTPContext outsiderWorld restrictedGate [] callbackRequest)) =
    [EvHttpError "access forbidden" 401] /\
  profile_fetches (trace (ServeHTTPContext outsiderWorld restrictedGate [] callbackRequest)) =
    [EvClientGet (conf_Client (oauthConfig outsiderWorld restrictedGate callbackRequest)
                    sampleToken) profileURL] /\
  handler_calls (trace (ServeHTTPContext outsiderWorld restrictedGate [] callbackRequest)) = [].
Proof.
  apply (domain_denial_is_refused outsiderWorld restrictedGate [] callbackRequest
           pendingSession sampleToken).
  - reflexivity.
  - reflexivity.
  - reflexivity.
  - reflexivity.
  - reflexivity.
  - discriminate.
  - reflexivity.
Defined.

(** ** The Domain Verifier, case by case *)

(** X10. [domainAllowed] answers true exactly when the profile request
    returns a response and no error, the status is 200, the body decodes
    to a profile, and the second [@]-separated piece of its email is the
    required domain. *)
Theorem domainAllowed_true_iff (W : World) (client : http.Client) (domain : string) :
  outcome (domainAllowed W client domain) = Ret true <->
  exists (resp : http.Response) (gp : googleProfile),
    client_Get W client profileURL = (Some resp, None) /\
    http.StatusCode resp = 200%Z /\
    json_Decode W (http.Body resp) = Some gp /\
    nth_error (strings.Split (Email gp) "@") 1 = Some domain.
Proof.
  split.
  - unfold domainAllowed.
    destruct (client_Get W client profileURL) as [[resp|] [err|]] eqn:Hg; simpl;
      try discriminate.
    destruct (http.StatusCode resp =? 200)%Z eqn:Hs; simpl; [|discriminate].
    destruct (json_Decode W (http.Body resp)) as [gp|] eqn:Hj; simpl; [|discriminate].
    destruct (strings.Split (Email gp) "@") as [|a [|d tl]] eqn:He; simpl; try discriminate.
    destruct (String.eqb d domain) eqn:Hd; simpl; [|discriminate].
    intros _. exists resp, gp. apply Z.eqb_eq in Hs. apply String.eqb_eq in Hd.
    rewrite He. subst d. repeat split; auto.
  - intros (resp & gp & Hg & Hs & Hj & He).
    rewrite (domainAllowed_profile W client domain resp gp Hg Hs Hj).
    unfold email_accepted.
    destruct (strings.Split (Email gp) "@") as [|a [|d tl]]; try discriminate.
    injection He as ->. now rewrite String.eqb_refl.
Qed.

(** X11. [domainAllowed] panics exactly when the profile request hands
    back no response, with or without an error; it never terminates the
    process. *)
Theorem domainAllowed_panics_iff_no_response (W : World) (client : http.Client)
    (domain : string) :
  ((exists msg, outcome (domainAllowed W client domain) = Panic msg) <->
   fst (client_Get W client profileURL) = None) /\
  (forall code, outcome (domainAllowed W client domain) <> Exit code).
Proof.
  split; [|apply domainAllowed_no_exit].
  unfold domainAllowed.
  destruct (client_Get W client profileURL) as [[resp|] [err|]]; simpl.
  - split; [intros [msg Hm]; discriminate | discriminate].
  - destruct (negb (http.StatusCode resp =? 200)%Z); simpl;
      [split; [intros [msg Hm]; discriminate | discriminate]|].
    destruct (json_Decode W (http.Body resp)) as [gp|]; simpl;
      [|split; [intros [msg Hm]; discriminate | discriminate]].
    destruct (strings.Split (Email gp) "@") as [|a [|d tl]]; simpl;
      try (split; [intros [msg Hm]; discriminate | discriminate]).
    destruct (String.eqb d domain); simpl;
      split; first [intros [msg Hm]; discriminate | discriminate].
  - split; eauto.
  - split; eauto.
Qed.

(** X12. A response whose status is not 200: [domainAllowed] logs and
    answers false without decoding the body, and returns before the
    deferred [resp.Body.Close()] is set up, so the body is left open. *)
Theorem domainAllowed_bad_status_leaves_body_open (W : World) (client : http.Client)
    (domain : string) (resp : http.Response) :
  client_Get W client profileURL = (Some resp, None) ->
  http.StatusCode resp <> 200%Z ->
  domainAllowed W client domain =
    ([EvClientGet client profileURL; EvLogError "domainAllowed" "Couldn't reach Google"],
     Ret false) /\
  body_closes (trace (domainAllowed W client domain)) = [].
Proof.
  intros Hg Hs. apply Z.eqb_neq in Hs.
  unfold domainAllowed. rewrite Hg. simpl. rewrite Hs. simpl. split; reflexivity.
Qed.

Lemma domainAllowed_bad_status_leaves_body_open_witness :
  domainAllowed unavailableWorld
    (conf_Client (oauthConfig unavailableWorld restrictedGate callbackRequest) sampleToken)
    "heroku.com" =
    ([EvClientGet
        (conf_Client (oauthConfig unavailableWorld restrictedGate callbackRequest) sampleToken)
        profileURL;
      EvLogError "domainAllowed" "Couldn't reach Google"],
     Ret false) /\
  body_closes
    (trace (domainAllowed unavailableWorld
              (conf_Client (oauthConfig unavailableWorld restrictedGate callbackRequest)
                 sampleToken)
              "heroku.com")) = [].
Proof.
  apply (domainAllowed_bad_status_leaves_body_open unavailableWorld _ "heroku.com"
           {| http.StatusCode := 503; http.Body := "" |}).
  - reflexivity.
  - discriminate.
Defined.

Lemma domainAllowed_body_closes (W : World) (client : http.Client) (domain : string) :
  body_closes (trace (domainAllowed W client domain)) =
    match client_Get W client profileURL with
    | (Some resp, None) => if (http.StatusCode resp =? 200)%Z then [EvBodyClose] else []
    | _ => []
    end.
Proof.
  unfold domainAllowed.
  destruct (client_Get W client profileURL) as [[resp|] [err|]]; simpl; try reflexivity.
  destruct (http.StatusCode resp =? 200)%Z; simpl; try reflexivity.
  destruct (json_Decode W (http.Body resp)) as [gp|]; simpl; try reflexivity.
  destruct (strings.Split (Email gp) "@") as [|a [|d tl]]; simpl; try reflexivity.
  destruct (String.eqb d domain); reflexivity.
Qed.

(** X13. The response body is closed exactly when the request returned a
    response with status 200 and no error, and then once, whether the
    profile is accepted, turned down or fails to decode. *)
Theorem body_closed_iff_status_200 (W : World) (client : http.Client) (domain : string) :
  (body_closes (trace (domainAllowed W client domain)) = [EvBodyClose] <->
   exists resp : http.Response,
     client_Get W client profileURL = (Some resp, None) /\
     http.StatusCode resp = 200%Z) /\
  (body_closes (trace (domainAllowed W client domain)) = [EvBodyClose] \/
   body_closes (trace (domainAllowed W client domain)) = []).
Proof.
  rewrite domainAllowed_body_closes.
  destruct (client_Get W client profileURL) as [[resp|] [err|]].
  - split; [split; [discriminate | intros (x & [= ] & _)] | now right].
  - destruct (http.StatusCode resp =? 200)%Z eqn:Hs.
    + apply Z.eqb_eq in Hs. split; [split; eauto | now left].
    + apply Z.eqb_neq in Hs.
      split; [split; [discriminate | intros (x & [= <-] & Hx); now destruct Hs] | now right].
  - split; [split; [discriminate | intros (x & [= ] & _)] | now right].
  - split; [split; [discriminate | intros (x & [= ] & _)] | now right].
Qed.

(** X14. On an email with at most one [@] the test of [domainAllowed]
    is the intended one: the email is accepted exactly when it has one [@]
    and what follows it is the required domain; an email without [@] is
    always turned down. *)
Theorem email_test_on_at_most_one_at (email domain : string) :
  strings.Count email "@" <= 1 ->
  email_accepted email domain = one_at_with_domain email domain /\
  (strings.Count email "@" = 0 -> email_accepted email domain = false).
Proof.
  intros Hc. pose proof (Split_length email "@") as L.
  unfold email_accepted, one_at_with_domain.
  destruct (strings.Split email "@") as [|a [|d [|x tl]]]; simpl in L;
    (split; [first [reflexivity | lia] | intros Hz; first [reflexivity | lia]]).
Qed.

Lemma email_test_on_at_most_one_at_witness :
  email_accepted "eve@heroku.com" "heroku.com" =
    one_at_with_domain "eve@heroku.com" "heroku.com" /\
  (strings.Count "eve@heroku.com" "@" = 0 ->
   email_accepted "eve@heroku.com" "heroku.com" = false).
Proof.
  apply (email_test_on_at_most_one_at "eve@heroku.com" "heroku.com").
  vm_compute. lia.
Defined.

(** ** The state generator *)




(** X16. The state is an encoding of the random draw: two draws of ten
    bytes that differ give states that differ. *)
Theorem distinct_draws_give_distinct_states (W W' : World) :
  length (entropy W) = 10 -> length (entropy W') = 10 ->
  forallb is_byte (entropy W) = true -> forallb is_byte (entropy W') = true ->
  entropy W <> entropy W' ->
  outcome (newState W) <> outcome (newState W').
Proof.
  intros L L' B B' Hne E. apply Hne.
  apply (newState_injective W W'
           (hex.EncodeToString (firstn 10 (entropy W ++ repeat 0%Z 10))) L L' B B');
    [reflexivity | now rewrite <- E].
Qed.

Lemma distinct_draws_give_distinct_states_witness :
  outcome (newState anonymousWorld) <> outcome (newState otherDrawWorld).
Proof.
  apply (distinct_draws_give_distinct_states anonymousWorld otherDrawWorld).
  - reflexivity.
  - reflexivity.
  - reflexivity.
  - reflexivity.
  - discriminate.
Defined.

(** ** The key *)

Lemma string_pair_ind (P : string -> Prop) :
  P EmptyString ->
  (forall c, P (String c EmptyString)) ->
  (forall a b s, P s -> P (String a (String b s))) ->
  forall s, P s.
Proof.
  intros H0 H1 H2 s.
  assert (H : P s /\ forall c, P (String c s)); [|apply H].
  induction s as [|c s [IH IH']]; split; auto.
Qed.

Lemma fromHexChar_range (c : ascii) (a : Z) :
  hex.fromHexChar c = Some a -> (0 <= a < 16)%Z.
Proof.
  unfold hex.fromHexChar.
  repeat match goal with
         | |- context [if ?b then _ else _] => destruct b eqn:?
         end; intros [= <-];
    repeat match goal with
           | H : (_ && _)%bool = true |- _ => apply andb_prop in H as [? ?]
           | H : (_ <=? _)%Z = true |- _ => apply Z.leb_le in H
           end; lia.
Qed.

Lemma nibbles_make_a_byte (a b : Z) :
  (0 <= a < 16)%Z -> (0 <= b < 16)%Z -> is_byte (Z.lor (Z.shiftl a 4) b) = true.
Proof.
  intros Ha Hb.
  assert (All : forallb (fun i => forallb (fun j =>
                  is_byte (Z.lor (Z.shiftl (Z.of_nat i) 4) (Z.of_nat j)))
                  (List.seq 0 16)) (List.seq 0 16) = true) by (vm_compute; reflexivity).
  rewrite forallb_forall in All.
  assert (Ia : In (Z.to_nat a) (List.seq 0 16)) by (apply in_seq; lia).
  assert (Ib : In (Z.to_nat b) (List.seq 0 16)) by (apply in_seq; lia).
  specialize (All (Z.to_nat a) Ia). rewrite forallb_forall in All.
  specialize (All (Z.to_nat b) Ib). now rewrite !Z2Nat.id in All by lia.
Qed.

Lemma DecodeString_length (s : string) (l : list Z) :
  hex.DecodeString s = Some l -> String.length s = 2 * length l.
Proof.
  revert l. induction s as [| c | a b s IH] using string_pair_ind; intros l.
  - now intros [= <-].
  - discriminate.
  - cbn [hex.DecodeString].
    destruct (hex.fromHexChar a); [|discriminate].
    destruct (hex.fromHexChar b); [|discriminate].
    destruct (hex.DecodeString s) as [tl|]; [|discriminate].
    intros [= <-]. cbn [String.length length]. rewrite (IH tl eq_refl). lia.
Qed.

Lemma DecodeString_bytes (s : string) (l : list Z) :
  hex.DecodeString s = Some l -> forallb is_byte l = true.
Proof.
  revert l. induction s as [| c | a b s IH] using string_pair_ind; intros l.
  - now intros [= <-].
  - discriminate.
  - cbn [hex.DecodeString].
    destruct (hex.fromHexChar a) as [x|] eqn:Ha; [|discriminate].
    destruct (hex.fromHexChar b) as [y|] eqn:Hb; [|discriminate].
    destruct (hex.DecodeString s) as [tl|]; [|discriminate].
    intros [= <-]. cbn [forallb].
    rewrite (nibbles_make_a_byte x y (fromHexChar_range a x Ha) (fromHexChar_range b y Hb)).
    now apply IH.
Qed.

(** A string decodes exactly when its length is even and it is made of
    hexadecimal digits. *)
Lemma DecodeString_Some_iff (s : string) :
  (exists l, hex.DecodeString s = Some l) <->
  Nat.even (String.length s) = true /\ all_hex s = true.
Proof.
  induction s as [| c | a b s IH] using string_pair_ind.
  - split; [now intros _ | intros _; now exists []].
  - split; [intros [l Hl]; discriminate | intros [He _]; discriminate].
  - cbn [hex.DecodeString String.length all_hex Nat.even]. unfold is_hex_digit.
    destruct (hex.fromHexChar a) as [x|]; [|split; [intros [l Hl] | intros [_ Hh]]; discriminate].
    destruct (hex.fromHexChar b) as [y|]; [|split; [intros [l Hl] | intros [_ Hh]]; discriminate].
    destruct (hex.DecodeString s) as [tl|].
    + split; [intros _; apply IH; eauto | intros _; eauto].
    + split; [intros [l Hl]; discriminate|].
      intros Hh. apply IH in Hh as [l Hl]. discriminate.
Qed.

(** X17. [keys] returns exactly when the environment variable KEY is a
    string of 64 hexadecimal digits, of either case; it then returns one
    key, the 32 bytes that string encodes.  In every other case (KEY
    unset, of another length, or with another character) it terminates the
    process with status 1. *)
Theorem keys_returns_iff_KEY_is_64_hex (W : World) (s : string) :
  ((exists ks, outcome (keys W s) = Ret ks) <->
   String.length (os_Getenv W "KEY") = 64 /\ all_hex (os_Getenv W "KEY") = true) /\
  (forall ks, outcome (keys W s) = Ret ks ->
     exists key, ks = [key] /\ length key = 32 /\ forallb is_byte key = true /\
                 hex.DecodeString (os_Getenv W "KEY") = Some key) /\
  ((exists ks, outcome (keys W s) = Ret ks) \/ outcome (keys W s) = Exit 1%Z).
Proof.
  unfold keys. simpl.
  destruct (hex.DecodeString (os_Getenv W "KEY")) as [key|] eqn:Hd; simpl.
  - pose proof (DecodeString_length _ _ Hd) as Hl.
    pose proof (DecodeString_bytes _ _ Hd) as Hb.
    assert (Hh : Nat.even (String.length (os_Getenv W "KEY")) = true /\
                 all_hex (os_Getenv W "KEY") = true)
      by (apply DecodeString_Some_iff; eauto).
    destruct (length key =? 32)%nat eqn:L; simpl.
    + apply Nat.eqb_eq in L.
      assert (C : copy32 key = key).
      { unfold copy32. rewrite firstn_app, L, firstn_all2 by lia.
        cbn [Nat.sub firstn]. apply app_nil_r. }
      rewrite C. split; [split; [intros _; split; [lia | apply Hh] | eauto]|].
      split; [|eauto]. intros ks [= <-]. exists key. auto.
    + apply Nat.eqb_neq in L.
      split; [split; [intros [ks Hk]; discriminate | intros [H64 _]; lia]|].
      split; [intros ks Hk; discriminate | now right].
  - split; [split; [intros [ks Hk]; discriminate|]|].
    + intros [H64 Hh].
      assert (E : exists l, hex.DecodeString (os_Getenv W "KEY") = Some l).
      { apply DecodeString_Some_iff. now rewrite H64. }
      destruct E as [l El]. congruence.
    + split; [intros ks Hk; discriminate | now right].
Qed.

(** ** The handler that is served *)

(** X18. An authenticated request is handed on according to the kind of
    [Handler]: with no handler set, [http.DefaultServeMux] is served through
    [ServeHTTP]; a plain handler is served through [ServeHTTP] and gets no
    context; a [ContextHandler] is served through [ServeHTTPContext] with a
    context in which [GetSession] finds the client made from the token of
    the session, also when the incoming context already held a session. *)
Theorem authenticated_dispatch (W : World) (h : OAuthHandler) (ctx : Context)
    (r : http.Request) (user : sess) (tok : oauth2.Token) :
  session_of W h r = Some user ->
  OAuthToken user = Some tok ->
  match Handler_ h with
  | None =>
      handler_calls (trace (ServeHTTPContext W h ctx r)) = [EvServeHTTP DefaultServeMux]
  | Some (PlainHandler n) =>
      handler_calls (trace (ServeHTTPContext W h ctx r)) = [EvServeHTTP (PlainHandler n)]
  | Some (ContextAware n) =>
      exists ctx' : Context,
        handler_calls (trace (ServeHTTPContext W h ctx r)) =
          [EvServeHTTPContext (ContextAware n) ctx'] /\
        GetSession ctx' = Some {| Client := conf_Client (oauthConfig W h r) tok |}
  end.
Proof.
  intros Hu Ht. destruct (session_of_config W h r user Hu) as [cfg Hc].
  rewrite (ServeHTTPContext_authenticated W h ctx r cfg user tok Hc Hu Ht).
  unfold handler_event, handlerOf.
  destruct (Handler_ h) as [[n|n]|]; try reflexivity.
  eexists. split; reflexivity.
Qed.

Lemma authenticated_dispatch_witness :
  handler_calls (trace (ServeHTTPContext activeWorld restrictedGate
                          [(sessionKey, {| Client := conf_Client
                                                       (oauthConfig activeWorld openGate
                                                          reportsRequest) sampleToken |})]
                          dashboardRequest)) =
    [EvServeHTTP DefaultServeMux].
Proof.
  apply (authenticated_dispatch activeWorld restrictedGate _ dashboardRequest
           activeSession sampleToken).
  - reflexivity.
  - reflexivity.
Defined.

(** ** The example program *)

(** X19. In the example program the [Key] field and the key in use
    agree, as long as the environment is the one [main] read: an
    authenticated request refreshes the cookie "googlegoauth", with empty
    path and domain and max-age 0, under the 32 bytes the [Key] field of
    the handler encodes, and is served by the mux of the program through
    [ServeHTTP]. *)
Theorem example_program_refreshes_and_serves (W : World) (ctx : Context) (r : http.Request)
    (user : sess) (tok : oauth2.Token) :
  session_of W (behindGoogleOAuth W) r = Some user ->
  OAuthToken user = Some tok ->
  (exists key : list Z,
     hex.DecodeString (Key (behindGoogleOAuth W)) = Some key /\
     length key = 32 /\
     session_sets (trace (ServeHTTPContext W (behindGoogleOAuth W) ctx r)) =
       [(user, {| session.Name := "googlegoauth";
                  session.Path := "";
                  session.Domain := "";
                  session.MaxAge := 0;
                  session.Keys := [key] |})]) /\
  handler_calls (trace (ServeHTTPContext W (behindGoogleOAuth W) ctx r)) =
    [EvServeHTTP (PlainHandler "mux")] /\
  responses (trace (ServeHTTPContext W (behindGoogleOAuth W) ctx r)) = [].
Proof.
  intros Hu Ht. destruct (session_of_config W _ r user Hu) as [cfg Hc].
  rewrite (ServeHTTPContext_authenticated W _ ctx r cfg user tok Hc Hu Ht).
  destruct (sessionConfig_fields W _ cfg Hc) as (Fn & Fp & Fd & Fa & key & Fk & Fl & Fs).
  split; [|split; reflexivity].
  exists key. split; [exact Fk|]. split; [exact Fl|].
  destruct cfg as [n p d a ks]. cbn in Fn, Fp, Fd, Fa, Fs. subst. reflexivity.
Qed.

Lemma example_program_refreshes_and_serves_witness :
  (exists key : list Z,
     hex.DecodeString (Key (behindGoogleOAuth deployedWorld)) = Some key /\
     length key = 32 /\
     session_sets (trace (ServeHTTPContext deployedWorld (behindGoogleOAuth deployedWorld)
                            [] dashboardRequest)) =
       [(activeSession, {| session.Name := "googlegoauth";
                           session.Path := "";
                           session.Domain := "";
                           session.MaxAge := 0;
                           session.Keys := [key] |})]) /\
  handler_calls (trace (ServeHTTPContext deployedWorld (behindGoogleOAuth deployedWorld)
                          [] dashboardRequest)) =
    [EvServeHTTP (PlainHandler "mux")] /\
  responses (trace (ServeHTTPContext deployedWorld (behindGoogleOAuth deployedWorld)
                      [] dashboardRequest)) = [].
Proof.
  apply (example_program_refreshes_and_serves deployedWorld [] dashboardRequest
           activeSession sampleToken).
  - reflexivity.
  - reflexivity.
Defined.

(** ** Witnesses of the refusal and repetition lemmas *)

Lemma callback_mismatch_is_refused_witness :
  outcome (ServeHTTPContext pendingWorld openGate [] forgedCallback) = Ret tt /\
  cookie_writes (trace (ServeHTTPContext pendingWorld openGate [] forgedCallback)) =
    [deletion] /\
  responses (trace (ServeHTTPContext pendingWorld openGate [] forgedCallback)) =
    [EvHttpError "access forbidden" 401] /\
  exchanges (trace (ServeHTTPContext pendingWorld openGate [] forgedCallback)) = [] /\
  handler_calls (trace (ServeHTTPContext pendingWorld openGate [] forgedCallback)) = [].
Proof.
  apply (callback_mismatch_is_refused pendingWorld openGate [] forgedCallback pendingSession).
  - reflexivity.
  - reflexivity.
  - reflexivity.
  - vm_compute. discriminate.
Defined.


(** ** A key that cannot be used *)

(** X23. When KEY does not decode, or decodes to another number of bytes
    than 32, every request ends the process with status 1 right after the
    key was looked up: the cookie is not read, nothing is answered and the
    protected handler is not called.  The log line tells the two cases
    apart. *)
Theorem unusable_key_ends_the_process (W : World) (h : OAuthHandler) (ctx : Context)
    (r : http.Request) :
  (hex.DecodeString (os_Getenv W "KEY") = None ->
   ServeHTTPContext W h ctx r =
     ([EvGetenv "KEY"; EvLogError "keys" "Invalid Key Code"], Exit 1%Z)) /\
  (forall key, hex.DecodeString (os_Getenv W "KEY") = Some key -> length key <> 32 ->
   ServeHTTPContext W h ctx r =
     ([EvGetenv "KEY"; EvLogError "keys" "Invalid Key Length"], Exit 1%Z)).
Proof.
  split.
  - intros Hd. apply ServeHTTPContext_Exit.
    unfold loginOk, sessionConfig, keys. rewrite Hd. reflexivity.
  - intros key Hd Hl. apply ServeHTTPContext_Exit.
    unfold loginOk, sessionConfig, keys. rewrite Hd.
    apply Nat.eqb_neq in Hl. rewrite Hl. reflexivity.
Qed.

Lemma unusable_key_ends_the_process_witness :
  ServeHTTPContext garbledKeyWorld openGate [] dashboardRequest =
    ([EvGetenv "KEY"; EvLogError "keys" "Invalid Key Code"], Exit 1%Z) /\
  ServeHTTPContext shortKeyWorld openGate [] dashboardRequest =
    ([EvGetenv "KEY"; EvLogError "keys" "Invalid Key Length"], Exit 1%Z).
Proof.
  split.
  - apply (proj1 (unusable_key_ends_the_process garbledKeyWorld openGate []
                    dashboardRequest)).
    reflexivity.
  - apply (proj2 (unusable_key_ends_the_process shortKeyWorld openGate []
                    dashboardRequest) [250; 186]%Z).
    + reflexivity.
    + discriminate.
Defined.

(** ** A whole login *)

Lemma callback_success_cookie (W : World) (h : OAuthHandler) (ctx : Context)
    (r : http.Request) (cfg : session.Config) (user : sess) (tok : oauth2.Token) :
  outcome (sessionConfig W h) = Ret cfg ->
  session_of W h r = Some user ->
  OAuthToken user = None ->
  on_callback_path r = true ->
  http.FormValue r "state" = State user ->
  Exchange W (oauthConfig W h r) (http.FormValue r "code") = Some tok ->
  RequireDomain h = EmptyString \/
    outcome (domainAllowed W (conf_Client (oauthConfig W h r) tok) (RequireDomain h)) =
      Ret true ->
  cookie_writes (trace (ServeHTTPContext W h ctx r)) =
    [({| OAuthToken := Some tok; NextURL := EmptyString; State := EmptyString |},
      session.MaxAge cfg)].
Proof.
  intros Hc Hu Ht Hp Hs Hx Hd.
  rewrite (ServeHTTPContext_callback_success W h ctx r cfg user Hc Hu Ht Hp tok Hs Hx Hd).
  project_trace; reflexivity.
Qed.


(** X24. Three requests make a login.  A request without token, off the
    callback path, gets a cookie; the callback comes back with that cookie
    and its state, the provider grants a token and the domain check, if
    any, passes; a third request comes with the cookie the callback got.
    Then the callback is answered with a redirect to the https URL of the
    first request, the third request reaches the protected handler with the
    client made from the granted token, and the responses of the gate are
    the two redirects and nothing else. *)
Theorem login_flow_reaches_handler (h : OAuthHandler) (W1 W2 W3 : World)
    (r1 r2 r3 : http.Request) (user1 v1 v2 : sess) (a1 a2 : Z) (tok : oauth2.Token) :
  session_of W1 h r1 = Some user1 ->
  OAuthToken user1 = None ->
  on_callback_path r1 = false ->
  cookie_writes (trace (ServeHTTP W1 h r1)) = [(v1, a1)] ->
  session_of W2 h r2 = Some v1 ->
  on_callback_path r2 = true ->
  http.FormValue r2 "state" = State v1 ->
  Exchange W2 (oauthConfig W2 h r2) (http.FormValue r2 "code") = Some tok ->
  RequireDomain h = EmptyString \/
    outcome (domainAllowed W2 (conf_Client (oauthConfig W2 h r2) tok) (RequireDomain h)) =
      Ret true ->
  cookie_writes (trace (ServeHTTP W2 h r2)) = [(v2, a2)] ->
  session_of W3 h r3 = Some v2 ->
  outcome (serveAll h [(W1, r1); (W2, r2); (W3, r3)]) = Ret tt /\
  responses (trace (serveAll h [(W1, r1); (W2, r2); (W3, r3)])) =
    [EvRedirect (AuthCodeURL W1 (oauthConfig W1 h r1) (State v1)) 307;
     EvRedirect (URL_String W1 (httpsURL r1)) 307] /\
  handler_calls (trace (serveAll h [(W1, r1); (W2, r2); (W3, r3)])) =
    [handler_event h (context_WithValue context_Background sessionKey
                        {| Client := conf_Client (oauthConfig W3 h r3) tok |})] /\
  v2 = {| OAuthToken := Some tok; NextURL := EmptyString; State := EmptyString |}.
Proof.
  intros Hu1 Ht1 Hp1 Hw1 Hu2 Hp2 Hs2 Hx2 Hd2 Hw2 Hu3.
  destruct (session_of_config W1 h r1 user1 Hu1) as [cfg1 Hc1].
  destruct (session_of_config W2 h r2 v1 Hu2) as [cfg2 Hc2].
  destruct (session_of_config W3 h r3 v2 Hu3) as [cfg3 Hc3].
  unfold ServeHTTP in Hw1, Hw2.
  rewrite (ServeHTTPContext_start_flow W1 h _ r1 cfg1 user1 Hc1 Hu1 Ht1 Hp1) in Hw1.
  cbn in Hw1. injection Hw1 as <- _.
  cbn [OAuthToken NextURL State] in *.
  rewrite (callback_success_cookie W2 h _ r2 cfg2 _ tok Hc2 Hu2 eq_refl Hp2 Hs2 Hx2 Hd2)
    in Hw2.
  injection Hw2 as <- _.
  cbn [serveAll]. unfold ServeHTTP.
  rewrite (ServeHTTPContext_start_flow W1 h _ r1 cfg1 user1 Hc1 Hu1 Ht1 Hp1).
  rewrite (ServeHTTPContext_callback_success W2 h _ r2 cfg2 _ Hc2 Hu2 eq_refl Hp2 tok Hs2 Hx2 Hd2).
  rewrite (ServeHTTPContext_authenticated W3 h _ r3 cfg3 _ tok Hc3 Hu3 eq_refl).
  cbn [bind ret]. project_trace; repeat split.
Qed.

Lemma login_flow_reaches_handler_witness :
  outcome (serveAll restrictedGate
             [(anonymousWorld, dashboardRequest); (pendingWorld, callbackRequest);
              (activeWorld, reportsRequest)]) = Ret tt /\
  responses (trace (serveAll restrictedGate
                      [(anonymousWorld, dashboardRequest); (pendingWorld, callbackRequest);
                       (activeWorld, reportsRequest)])) =
    [EvRedirect (AuthCodeURL anonymousWorld
                   (oauthConfig anonymousWorld restrictedGate dashboardRequest)
                   (State pendingSession)) 307;
     EvRedirect (URL_String anonymousWorld (httpsURL dashboardRequest)) 307] /\
  handler_calls (trace (serveAll restrictedGate
                          [(anonymousWorld, dashboardRequest); (pendingWorld, callbackRequest);
                           (activeWorld, reportsRequest)])) =
    [handler_event restrictedGate
       (context_WithValue context_Background sessionKey
          {| Client := conf_Client (oauthConfig activeWorld restrictedGate reportsRequest)
                         sampleToken |})] /\
  activeSession =
    {| OAuthToken := Some sampleToken; NextURL := EmptyString; State := EmptyString |}.
Proof.
  apply (login_flow_reaches_handler restrictedGate anonymousWorld pendingWorld activeWorld
           dashboardRequest callbackRequest reportsRequest sess_zero pendingSession
           activeSession (MaxAge restrictedGate) (MaxAge restrictedGate) sampleToken).
  - reflexivity.
  - reflexivity.
  - reflexivity.
  - vm_compute. reflexivity.
  - reflexivity.
  - reflexivity.
  - reflexivity.
  - reflexivity.
  - right. reflexivity.
  - vm_compute. reflexivity.
  - reflexivity.
Defined.
